(** * KeyClaim Node.js SDK: the client and its response generator

    A shallow embedding of [KeyClaimClient] (constructor, [createChallenge],
    [generateResponse], [validateChallenge], [validate], [handleError]) and
    of [KeyClaimError], together with the parts of the runtime the client
    calls into: Node's [crypto] (SHA-256, HMAC-SHA256, hex digests),
    [Buffer.from(_, 'base64')], the JavaScript value operations the code
    uses ([||], [!], [in], template literals, [JSON.stringify]) and the
    axios transport.

    Strings are modelled by their UTF-8 byte sequences ([string] of
    Stdlib): this is what [Hash.update] and [Hmac.update] consume, and
    concatenation and [startsWith] with an ASCII prefix agree on both
    views for well-formed strings. *)

From Stdlib Require Import ZArith List String Ascii Bool Lia.
From Stdlib Require Import DecimalString.
Import ListNotations.

Local Open Scope string_scope.
Local Open Scope Z_scope.

#[local] Set Warnings "-register-all".

(* ===================================================================== *)
(** ** Node's [crypto]: SHA-256 (FIPS 180-4) and HMAC (RFC 2104)          *)
(* ===================================================================== *)

Module Crypto.
Local Open Scope list_scope.

(** 32-bit words are [Z] values kept in the range [0, 2^32). *)
Definition mask32 : Z := Z.ones 32.

Definition add32 (x y : Z) : Z := Z.land (x + y) mask32.

Definition rotr (n x : Z) : Z :=
  Z.lor (Z.shiftr x n) (Z.land (Z.shiftl x (32 - n)) mask32).

Definition lnot32 (x : Z) : Z := Z.lxor x mask32.

Definition xor3 (a b c : Z) : Z := Z.lxor (Z.lxor a b) c.

Definition Ch (x y z : Z) : Z := Z.lxor (Z.land x y) (Z.land (lnot32 x) z).

Definition Maj (x y z : Z) : Z :=
  xor3 (Z.land x y) (Z.land x z) (Z.land y z).

Definition Sum0 (x : Z) : Z := xor3 (rotr 2 x) (rotr 13 x) (rotr 22 x).
Definition Sum1 (x : Z) : Z := xor3 (rotr 6 x) (rotr 11 x) (rotr 25 x).
Definition sig0 (x : Z) : Z := xor3 (rotr 7 x) (rotr 18 x) (Z.shiftr x 3).
Definition sig1 (x : Z) : Z := xor3 (rotr 17 x) (rotr 19 x) (Z.shiftr x 10).

(** The round constants are the first 32 fractional bits of the cube
    roots of the first 64 primes, and the initial state those of the
    square roots of the first 8: both tables are computed from that
    description. *)
Definition primes64 : list Z :=
  [   2;   3;   5;   7;  11;  13;  17;  19;  23;  29;  31;  37;  41;
     43;  47;  53;  59;  61;  67;  71;  73;  79;  83;  89;  97; 101;
    103; 107; 109; 113; 127; 131; 137; 139; 149; 151; 157; 163; 167;
    173; 179; 181; 191; 193; 197; 199; 211; 223; 227; 229; 233; 239;
    241; 251; 257; 263; 269; 271; 277; 281; 283; 293; 307; 311 ].

(** Integer cube root below [2^bits], one bit at a time. *)
Fixpoint icbrt_bits (bits : nat) (n r : Z) : Z :=
  match bits with
  | O => r
  | S k =>
      let c := r + Z.shiftl 1 (Z.of_nat k) in
      icbrt_bits k n (if c * c * c <=? n then c else r)
  end.

Definition frac_cbrt32 (p : Z) : Z :=
  Z.land (icbrt_bits 36 (Z.shiftl p 96) 0) mask32.

Definition frac_sqrt32 (p : Z) : Z :=
  Z.land (Z.sqrt (Z.shiftl p 64)) mask32.

Definition K : list Z := Eval vm_compute in map frac_cbrt32 primes64.

Definition H0 : list Z :=
  Eval vm_compute in map frac_sqrt32 (firstn 8 primes64).

(** *** Padding and parsing *)

Fixpoint be_bytes (n : nat) (x : Z) : list Z :=
  match n with
  | O => []
  | S k => be_bytes k (Z.shiftr x 8) ++ [Z.land x 255]
  end.

Definition pad (msg : list Z) : list Z :=
  let len := Z.of_nat (List.length msg) in
  msg ++ 128 :: repeat 0 (Z.to_nat ((55 - len) mod 64)) ++ be_bytes 8 (8 * len).

Fixpoint words (bs : list Z) : list Z :=
  match bs with
  | a :: b :: c :: d :: rest =>
      Z.lor (Z.lor (Z.shiftl a 24) (Z.shiftl b 16)) (Z.lor (Z.shiftl c 8) d)
      :: words rest
  | _ => []
  end.

Fixpoint blocks (n : nat) (ws : list Z) : list (list Z) :=
  match n with
  | O => []
  | S k => firstn 16 ws :: blocks k (skipn 16 ws)
  end.

(** *** Message schedule and compression *)

(** [recent] holds the words computed so far, newest first. *)
Definition next_w (recent : list Z) : Z :=
  add32 (add32 (sig1 (nth 1 recent 0)) (nth 6 recent 0))
        (add32 (sig0 (nth 14 recent 0)) (nth 15 recent 0)).

Fixpoint extend (n : nat) (recent : list Z) : list Z :=
  match n with
  | O => recent
  | S k => extend k (next_w recent :: recent)
  end.

Definition schedule (block : list Z) : list Z :=
  rev (extend 48 (rev block)).

Record regs : Type :=
  Regs { ra : Z; rb : Z; rc : Z; rd : Z; re : Z; rf : Z; rg : Z; rh : Z }.

Definition round (s : regs) (kw : Z * Z) : regs :=
  let t1 := add32 (add32 (add32 (rh s) (Sum1 (re s)))
                         (add32 (Ch (re s) (rf s) (rg s)) (fst kw)))
                  (snd kw) in
  let t2 := add32 (Sum0 (ra s)) (Maj (ra s) (rb s) (rc s)) in
  Regs (add32 t1 t2) (ra s) (rb s) (rc s) (add32 (rd s) t1) (re s) (rf s) (rg s).

Definition regs_add (s t : regs) : regs :=
  Regs (add32 (ra s) (ra t)) (add32 (rb s) (rb t)) (add32 (rc s) (rc t))
       (add32 (rd s) (rd t)) (add32 (re s) (re t)) (add32 (rf s) (rf t))
       (add32 (rg s) (rg t)) (add32 (rh s) (rh t)).

Definition compress (s : regs) (block : list Z) : regs :=
  regs_add s (fold_left round (combine K (schedule block)) s).

Definition regs_of_list (l : list Z) : regs :=
  Regs (nth 0 l 0) (nth 1 l 0) (nth 2 l 0) (nth 3 l 0)
       (nth 4 l 0) (nth 5 l 0) (nth 6 l 0) (nth 7 l 0).

Definition regs_bytes (s : regs) : list Z :=
  flat_map (be_bytes 4)
    [ra s; rb s; rc s; rd s; re s; rf s; rg s; rh s].

(** The 32-byte digest of a byte string. *)
Definition sha256 (msg : list Z) : list Z :=
  let ws := words (pad msg) in
  regs_bytes
    (fold_left compress (blocks (Nat.div (List.length ws) 16) ws) (regs_of_list H0)).

(** HMAC with SHA-256 (block size 64 bytes). *)
Definition hmac_sha256 (key msg : list Z) : list Z :=
  let k0 := if (64 <? List.length key)%nat then sha256 key else key in
  let k := k0 ++ repeat 0 (64 - List.length k0)%nat in
  sha256 (map (Z.lxor 92) k ++ sha256 (map (Z.lxor 54) k ++ msg)).

(** *** Strings in, hex out *)

Definition bytes_of_string (s : string) : list Z :=
  map (fun c => Z.of_N (N_of_ascii c)) (list_ascii_of_string s).

Definition hex_digit (d : Z) : ascii :=
  ascii_of_N (Z.to_N (if d <? 10 then 48 + d else 87 + d)).

Fixpoint hex (bs : list Z) : string :=
  match bs with
  | [] => EmptyString
  | b :: rest =>
      String (hex_digit (Z.shiftr b 4)) (String (hex_digit (Z.land b 15)) (hex rest))
  end.

(** [crypto.createHash('sha256').update(data).digest('hex')] *)
Definition createHash_sha256_hex (data : string) : string :=
  hex (sha256 (bytes_of_string data)).

(** [crypto.createHmac('sha256', key).update(data).digest('hex')] *)
Definition createHmac_sha256_hex (key data : string) : string :=
  hex (hmac_sha256 (bytes_of_string key) (bytes_of_string data)).

End Crypto.

(* ===================================================================== *)
(** ** JavaScript values as the client sees them                           *)
(* ===================================================================== *)

Module Js.

(** The values that reach the client as [customData], as a parsed JSON
    body, or as [undefined].  Numbers are the integers (no fraction, no
    [NaN]); [Num n] stands for a number of the program when [n] is a safe
    integer, see [safe_integer] and [in_range] below.  An object is the
    list of its own enumerable properties in enumeration order, with
    distinct keys. *)
Inductive value : Type :=
| Undefined
| Null
| Bool (b : bool)
| Num (n : Z)
| Str (s : string)
| Arr (items : list value)
| Obj (props : list (string * value)).

Definition dquote : ascii := "034"%char.

(** [ToBoolean]: what [!v], [v || w] and [v && w] test. *)
Definition truthy (v : value) : bool :=
  match v with
  | Undefined | Null => false
  | Bool b => b
  | Num n => negb (n =? 0)
  | Str s => negb (String.eqb s "")
  | Arr _ | Obj _ => true
  end.

(** [a || b] *)
Definition or (a b : value) : value := if truthy a then a else b.

(** [Number.isSafeInteger(n)]: every integer of this range is a number of
    the program, and is printed by [Number::toString] with all its decimal
    digits.  Beyond it numbers are rounded, and from [1e21] on printed
    with an exponent. *)
Definition safe_integer (n : Z) : bool := Z.abs n <=? 9007199254740991.

(** The decimal digits of an integer: [Number::toString] on the safe
    integers. *)
Definition string_of_Z (n : Z) : string := NilZero.string_of_int (Z.to_int n).

(** [ToString], as applied by template literals, by [+] with a string
    operand and by the [Error] constructor. *)
Fixpoint ToString (v : value) : string :=
  match v with
  | Undefined => "undefined"
  | Null => "null"
  | Bool b => if b then "true" else "false"
  | Num n => string_of_Z n
  | Str s => s
  | Arr items =>
      String.concat ","
        ((fix each (l : list value) : list string :=
            match l with
            | [] => []
            | x :: rest =>
                match x with
                | Undefined | Null => ""
                | _ => ToString x
                end :: each rest
            end) items)
  | Obj _ => "[object Object]"
  end.

Fixpoint lookup (k : string) (props : list (string * value)) : option value :=
  match props with
  | [] => None
  | (k', v) :: rest => if String.eqb k k' then Some v else lookup k rest
  end.

(** [v.k] for a [v] other than [undefined] and [null], and for a key [k]
    that no prototype defines (the client reads [error], [message],
    [challenge]): a primitive or an array has no such property. *)
Definition get (k : string) (v : value) : value :=
  match v with
  | Obj props => match lookup k props with Some x => x | None => Undefined end
  | _ => Undefined
  end.

(** [v?.k] *)
Definition opt_get (k : string) (v : value) : value :=
  match v with
  | Undefined | Null => Undefined
  | _ => get k v
  end.

(** [k in v], for a key no prototype defines: [None] stands for the
    [TypeError] that [in] raises on a primitive right operand. *)
Definition has (k : string) (v : value) : option bool :=
  match v with
  | Obj props => Some (match lookup k props with Some _ => true | None => false end)
  | Arr _ => Some false
  | _ => None
  end.

(** *** [JSON.stringify] *)

Definition hex_digit (d : N) : ascii :=
  ascii_of_N (if (d <? 10)%N then 48 + d else 87 + d)%N.

Definition escape (c : ascii) : string :=
  let n := N_of_ascii c in
  if (n =? 34)%N then String "\"%char (String dquote "")
  else if (n =? 92)%N then "\\"
  else if (n =? 8)%N then "\b"
  else if (n =? 9)%N then "\t"
  else if (n =? 10)%N then "\n"
  else if (n =? 12)%N then "\f"
  else if (n =? 13)%N then "\r"
  else if (n <? 32)%N then
    "\u00" ++ String (hex_digit (n / 16)) (String (hex_digit (n mod 16)) "")
  else String c "".

Fixpoint escape_all (s : string) : string :=
  match s with
  | EmptyString => ""
  | String c rest => escape c ++ escape_all rest
  end.

Definition quote (s : string) : string :=
  String dquote (escape_all s ++ String dquote "").

(** [None] is the [undefined] that [JSON.stringify(undefined)] returns;
    inside an array it is written [null], inside an object the property
    is left out. *)
Fixpoint stringify (v : value) : option string :=
  match v with
  | Undefined => None
  | Null => Some "null"
  | Bool b => Some (if b then "true" else "false")
  | Num n => Some (string_of_Z n)
  | Str s => Some (quote s)
  | Arr items =>
      Some ("[" ++ String.concat ","
        ((fix each (l : list value) : list string :=
            match l with
            | [] => []
            | x :: rest =>
                match stringify x with Some t => t | None => "null" end
                :: each rest
            end) items) ++ "]")
  | Obj props =>
      Some ("{" ++ String.concat ","
        ((fix each (l : list (string * value)) : list string :=
            match l with
            | [] => []
            | (k, x) :: rest =>
                match stringify x with
                | Some t => (quote k ++ ":" ++ t) :: each rest
                | None => each rest
                end
            end) props) ++ "}")
  end.

(** [`${JSON.stringify(v)}`] *)
Definition stringify_in_template (v : value) : string :=
  match stringify v with Some t => t | None => "undefined" end.

(** The values all of whose numbers are safe integers: on these
    [string_of_Z], and with it [ToString] and [stringify], print numbers
    as the program does. *)
Fixpoint in_range (v : value) : bool :=
  match v with
  | Num n => safe_integer n
  | Arr items =>
      (fix each (l : list value) : bool :=
         match l with
         | [] => true
         | x :: rest => in_range x && each rest
         end) items
  | Obj props =>
      (fix each (l : list (string * value)) : bool :=
         match l with
         | [] => true
         | (_, x) :: rest => in_range x && each rest
         end) props
  | _ => true
  end.

End Js.

(* ===================================================================== *)
(** ** [Buffer.from(s, 'base64').toString('utf-8')]                        *)
(* ===================================================================== *)

Module Base64.

Definition sextet (c : ascii) : option Z :=
  let n := Z.of_N (N_of_ascii c) in
  if (65 <=? n) && (n <=? 90) then Some (n - 65)
  else if (97 <=? n) && (n <=? 122) then Some (n - 71)
  else if (48 <=? n) && (n <=? 57) then Some (n + 4)
  else if n =? 43 then Some 62
  else if n =? 47 then Some 63
  else None.

(** [acc] holds the [bits] pending bits; the padding sign ends the data. *)
Fixpoint decode_from (acc bits : Z) (s : string) : string :=
  match s with
  | EmptyString => ""
  | String c rest =>
      match sextet c with
      | None => ""
      | Some v =>
          let acc' := acc * 64 + v in
          let bits' := bits + 6 in
          if 8 <=? bits' then
            String (ascii_of_N (Z.to_N (Z.shiftr acc' (bits' - 8))))
                   (decode_from (Z.land acc' (Z.ones (bits' - 8))) (bits' - 8) rest)
          else decode_from acc' bits' rest
      end
  end.

Definition decode (s : string) : string := decode_from 0 0 s.

End Base64.

(* ===================================================================== *)
(** ** The axios transport                                                 *)
(* ===================================================================== *)

Module Axios.

(** What [axios.create] is given and every request inherits. *)
Record AxiosInstance : Type := {
  baseURL : string;
  headers : list (string * string);
  timeout : Z
}.

(** A POST as it leaves the instance. *)
Record Request : Type := {
  config : AxiosInstance;
  url : string;
  body : Js.value
}.

Record AxiosResponse : Type := { status : Z; data : Js.value }.

(** The rejection of a request: [response] is set when the server
    answered with a status outside 2xx, [request] when the request was
    sent and nothing came back. *)
Record AxiosError : Type := {
  message : string;
  response : option AxiosResponse;
  request : bool
}.

Inductive Settled : Type :=
| Resolved (r : AxiosResponse)
| Rejected (e : AxiosError).

(** The remote side: its answer to a request, given the requests made
    before it. *)
Definition Transport : Type := list Request -> Request -> Settled.

End Axios.

(* ===================================================================== *)
(** ** [KeyClaimError] and what a [catch] clause can receive               *)
(* ===================================================================== *)

Record KeyClaimError : Type := {
  message : string;
  code : Js.value;
  statusCode : option Z
}.

(** [new KeyClaimError(message, code?, statusCode?)]: [Error] stores
    [ToString(message)]. *)
Definition new_KeyClaimError
    (message : Js.value) (code : Js.value) (statusCode : option Z) : KeyClaimError :=
  {| message := Js.ToString message; code := code; statusCode := statusCode |}.

(** The values thrown inside the client: a rejection of axios, an error of
    the client's own, or a [TypeError] of the runtime. *)
Inductive Thrown : Type :=
| ThrownAxios (e : Axios.AxiosError)
| ThrownKeyClaim (e : KeyClaimError)
| ThrownType (message : string).

(** [error.response], [error.request] and [error.message] of a caught
    value seen as an [AxiosError]. *)
Definition response_of (error : Thrown) : option Axios.AxiosResponse :=
  match error with
  | ThrownAxios e => Axios.response e
  | _ => None
  end.

Definition request_of (error : Thrown) : bool :=
  match error with
  | ThrownAxios e => Axios.request e
  | _ => false
  end.

Definition message_of (error : Thrown) : string :=
  match error with
  | ThrownAxios e => Axios.message e
  | ThrownKeyClaim e => message e
  | ThrownType m => m
  end.

(* ===================================================================== *)
(** ** [KeyClaimClient]                                                    *)
(* ===================================================================== *)

Definition DEFAULT_BASE_URL_B64 : string := "aHR0cHM6Ly9rZXljbGFpbS5vcmc=".

Module KeyClaimConfig.
Record t : Type := { apiKey : string; secret : option string }.
End KeyClaimConfig.

(** Response bodies stay [Js.value]s: [CreateChallengeResponse] and
    [ValidateChallengeResponse] annotate what the remote side is expected
    to send and are not checked when a response arrives. *)
Record CreateChallengeOptions : Type := { ttl : option Z }.

Record ValidateChallengeOptions : Type := {
  challenge : Js.value;
  response : Js.value;
  decryptedChallenge : Js.value
}.

Record KeyClaimClient : Type := {
  apiKey : string;
  baseUrl : string;
  secret : string;
  axiosInstance : Axios.AxiosInstance
}.

(** [s || d] for an optional string [s]. *)
Definition or_string (s : option string) (d : string) : string :=
  match s with
  | Some x => if String.eqb x "" then d else x
  | None => d
  end.

(** [n || d] for an optional number [n]. *)
Definition or_number (n : option Z) (d : Z) : Z :=
  match n with
  | Some x => if x =? 0 then d else x
  | None => d
  end.

Definition invalid_api_key_message : string :=
  "Invalid API key format. API key must start with "
  ++ String Js.dquote ("kc_" ++ String Js.dquote "").

(** [new KeyClaimClient(config, secret?)]: [config] is the configuration
    object ([inl]) or the API key of the positional form ([inr]). *)
Definition constructor
    (config : KeyClaimConfig.t + string) (secret' : option string)
    : KeyClaimError + KeyClaimClient :=
  let defaultBaseUrl := Base64.decode DEFAULT_BASE_URL_B64 in
  let '(this_apiKey, this_baseUrl, this_secret) :=
    match config with
    | inr config => (config, defaultBaseUrl, or_string secret' config)
    | inl config =>
        (KeyClaimConfig.apiKey config, defaultBaseUrl,
         or_string (KeyClaimConfig.secret config) (KeyClaimConfig.apiKey config))
    end in
  if String.eqb this_apiKey "" || negb (String.prefix "kc_" this_apiKey) then
    inl (new_KeyClaimError (Js.Str invalid_api_key_message) Js.Undefined None)
  else
    inr {| apiKey := this_apiKey;
           baseUrl := this_baseUrl;
           secret := this_secret;
           axiosInstance :=
             {| Axios.baseURL := this_baseUrl ++ "/api";
                Axios.headers :=
                  [("Content-Type", "application/json");
                   ("Authorization", "Bearer " ++ this_apiKey)];
                Axios.timeout := 30000 |} |}.

(** [createClient(config, secret?)] *)
Definition createClient
    (config : KeyClaimConfig.t + string) (secret' : option string)
    : KeyClaimError + KeyClaimClient :=
  constructor config secret'.

(** *** Methods: computations over the client and the network

    A method runs against the client object ([this]), the remote side
    ([net]) and the requests made so far ([sent]).  It completes normally
    with a value or abruptly with a thrown value; in both cases the state
    it leaves is the one the next statement or the [catch] clause sees. *)

Record World : Type := {
  this : KeyClaimClient;
  net : Axios.Transport;
  sent : list Axios.Request
}.

Inductive Completion (A : Type) : Type :=
| Normal (a : A)
| Abrupt (e : Thrown).
Arguments Normal {A} a.
Arguments Abrupt {A} e.

Definition M (A : Type) : Type := World -> Completion A * World.

Definition ret {A} (a : A) : M A := fun w => (Normal a, w).

Definition throw {A} (e : Thrown) : M A := fun w => (Abrupt e, w).

Definition bind {A B} (c : M A) (k : A -> M B) : M B :=
  fun w =>
    match c w with
    | (Normal a, w') => k a w'
    | (Abrupt e, w') => (Abrupt e, w')
    end.

Definition try_catch {A} (c : M A) (handler : Thrown -> M A) : M A :=
  fun w =>
    match c w with
    | (Normal a, w') => (Normal a, w')
    | (Abrupt e, w') => handler e w'
    end.

Definition get_this : M KeyClaimClient := fun w => (Normal (this w), w).

Declare Scope js_scope.
Delimit Scope js_scope with js.
Notation "x <- c ;; k" := (bind c (fun x => k))
  (at level 100, c at next level, right associativity) : js_scope.
Local Open Scope js_scope.

(** The request that [this.axiosInstance.post(url, body)] sends. *)
Definition request_for (client : KeyClaimClient) (url : string) (body : Js.value)
    : Axios.Request :=
  {| Axios.config := axiosInstance client;
     Axios.url := url;
     Axios.body := body |}.

(** [await this.axiosInstance.post(url, body)] *)
Definition post (url : string) (body : Js.value) : M Axios.AxiosResponse :=
  fun w =>
    let req := request_for (this w) url body in
    let w' := {| this := this w; net := net w; sent := sent w ++ [req] |} in
    match net w (sent w) req with
    | Axios.Resolved r => (Normal r, w')
    | Axios.Rejected e => (Abrupt (ThrownAxios e), w')
    end.

(** Messages of the runtime's [TypeError]s, in the wording of Node and
    V8. *)

(** How Node names the value it received in place of a string. *)
Definition received (v : Js.value) : string :=
  match v with
  | Js.Undefined => "undefined"
  | Js.Null => "null"
  | Js.Bool b => "type boolean (" ++ Js.ToString v ++ ")"
  | Js.Num n => "type number (" ++ Js.ToString v ++ ")"
  | Js.Str s => "type string ('" ++ s ++ "')"
  | Js.Arr _ => "an instance of Array"
  | Js.Obj _ => "an instance of Object"
  end.

(** [Hmac.update(v)] for a [v] that is not a string. *)
Definition update_type_error (v : Js.value) : string :=
  "The " ++ String Js.dquote ("data" ++ String Js.dquote
  (" argument must be of type string or an instance of Buffer, TypedArray, or DataView."
   ++ " Received " ++ received v)).

Definition in_type_error (k : string) (v : Js.value) : string :=
  "Cannot use 'in' operator to search for '" ++ k ++ "' in " ++ Js.ToString v.

(** [const { k } = await ...] for a [v] that is [undefined] or [null]. *)
Definition destructure_type_error (k : string) (v : Js.value) : string :=
  "Cannot destructure property '" ++ k ++ "' of '(intermediate value)' as it is "
  ++ Js.ToString v ++ ".".

(** [const { k } = v] *)
Definition destructure (k : string) (v : Js.value) : M Js.value :=
  match v with
  | Js.Undefined | Js.Null => throw (ThrownType (destructure_type_error k v))
  | _ => ret (Js.get k v)
  end.

(** [handleError(error, defaultMessage)] *)
Definition handleError (error : Thrown) (defaultMessage : string) : KeyClaimError :=
  match response_of error with
  | Some resp =>
      let statusCode := Axios.status resp in
      let errorData := Axios.data resp in
      let errorMessage :=
        Js.or (Js.or (Js.opt_get "error" errorData) (Js.opt_get "message" errorData))
              (Js.Str (message_of error)) in
      new_KeyClaimError
        (Js.or errorMessage (Js.Str defaultMessage))
        (Js.opt_get "error" errorData)
        (Some statusCode)
  | None =>
      if request_of error then
        new_KeyClaimError
          (Js.Str "Network error: No response received from server")
          (Js.Str "network_error") None
      else
        new_KeyClaimError
          (Js.or (Js.Str (message_of error)) (Js.Str defaultMessage))
          (Js.Str "unknown_error") None
  end.

(** [createChallenge(options = {})] *)
Definition createChallenge (options : CreateChallengeOptions) : M Js.value :=
  try_catch
    (response <- post "/challenge/create"
                   (Js.Obj [("ttl", Js.Num (or_number (ttl options) 30))]) ;;
     ret (Axios.data response))
    (fun error =>
       throw (ThrownKeyClaim (handleError error "Failed to create challenge"))).

(** [generateResponse(challenge, method = 'hmac', customData?)] *)
Definition generateResponse
    (challenge : Js.value) (method : option string) (customData : Js.value)
    : M Js.value :=
  let method := match method with Some m => m | None => "hmac" end in
  this <- get_this ;;
  if String.eqb method "echo" then
    ret challenge
  else if String.eqb method "hmac" then
    match challenge with
    | Js.Str c => ret (Js.Str (Crypto.createHmac_sha256_hex (secret this) c))
    | _ => throw (ThrownType (update_type_error challenge))
    end
  else if String.eqb method "hash" then
    ret (Js.Str (Crypto.createHash_sha256_hex (Js.ToString challenge ++ secret this)))
  else if String.eqb method "custom" then
    if negb (Js.truthy customData) then
      throw (ThrownKeyClaim
               (new_KeyClaimError
                  (Js.Str "Custom data is required for custom method")
                  Js.Undefined None))
    else
      let data :=
        match customData with
        | Js.Str s => Js.ToString challenge ++ ":" ++ s
        | _ => Js.ToString challenge ++ ":" ++ Js.stringify_in_template customData
        end in
      ret (Js.Str (Crypto.createHash_sha256_hex data))
  else
    throw (ThrownKeyClaim
             (new_KeyClaimError
                (Js.Str ("Unknown response method: " ++ method))
                Js.Undefined None)).

(** The body that [validateChallenge] posts. *)
Definition validation_body (options : ValidateChallengeOptions) : Js.value :=
  Js.Obj [("challenge", challenge options);
          ("response", response options);
          ("decryptedChallenge", decryptedChallenge options)].

(** [validateChallenge(options)] *)
Definition validateChallenge (options : ValidateChallengeOptions) : M Js.value :=
  try_catch
    (response <- post "/challenge/validate" (validation_body options) ;;
     ret (Axios.data response))
    (fun error =>
       let data :=
         match response_of error with
         | Some resp => Axios.data resp
         | None => Js.Undefined
         end in
       answered <-
         (if Js.truthy data then
            match Js.has "valid" data with
            | Some b => ret b
            | None => throw (ThrownType (in_type_error "valid" data))
            end
          else ret false) ;;
       if answered : bool then
         ret (Js.Obj [("valid", Js.Bool false);
                      ("error", Js.or (Js.get "error" data) (Js.Str "Validation failed"))])
       else
         throw (ThrownKeyClaim (handleError error "Failed to validate challenge"))).

(** [validate(method = 'hmac', ttl = 30, customData?)] *)
Definition validate
    (method : option string) (ttl' : option Z) (customData : Js.value)
    : M Js.value :=
  let method := match method with Some m => m | None => "hmac" end in
  let ttl' := match ttl' with Some t => t | None => 30 end in
  try_catch
    (created <- createChallenge {| ttl := Some ttl' |} ;;
     challenge <- destructure "challenge" created ;;
     response <- generateResponse challenge (Some method) customData ;;
     validateChallenge {| challenge := challenge;
                          response := response;
                          decryptedChallenge := Js.Undefined |})
    (fun error =>
       throw (ThrownKeyClaim (handleError error "Validation flow failed"))).

Arguments Crypto.createHash_sha256_hex : simpl never.
Arguments Crypto.createHmac_sha256_hex : simpl never.

(* ===================================================================== *)
(** ** Predicates on computations, errors and digests                      *)
(* ===================================================================== *)

(** A computation that neither replaces the client object nor the remote
    side; it may send requests. *)
Definition keeps_client {A} (c : M A) : Prop :=
  forall w, this (snd (c w)) = this w /\ net (snd (c w)) = net w.

(** A computation without any effect. *)
Definition silent {A} (c : M A) : Prop :=
  forall w, snd (c w) = w.

(** The error of the constructor for a key without the prefix. *)
Definition invalid_api_key : KeyClaimError :=
  {| message := invalid_api_key_message;
     code := Js.Undefined;
     statusCode := None |}.

(** The public operations of a constructed client, and a run of several
    of them one after the other on the same client. *)
Inductive Call : Type :=
| CallCreateChallenge (options : CreateChallengeOptions)
| CallGenerateResponse (challenge : Js.value) (method : option string)
                       (customData : Js.value)
| CallValidateChallenge (options : ValidateChallengeOptions)
| CallValidate (method : option string) (ttl' : option Z) (customData : Js.value).

Definition perform (call : Call) : M Js.value :=
  match call with
  | CallCreateChallenge options => createChallenge options
  | CallGenerateResponse challenge method customData =>
      generateResponse challenge method customData
  | CallValidateChallenge options => validateChallenge options
  | CallValidate method ttl' customData => validate method ttl' customData
  end.

Fixpoint after (calls : list Call) (w : World) : World :=
  match calls with
  | [] => w
  | call :: rest => after rest (snd (perform call w))
  end.

(** A thrown value that is not a rejection of axios: as an [AxiosError]
    it has neither [response] nor [request]. *)
Definition own_error (e : Thrown) : Prop :=
  match e with
  | ThrownAxios _ => False
  | _ => True
  end.

Definition throws_own {A} (c : M A) : Prop :=
  forall w e w', c w = (Abrupt e, w') -> own_error e.

(** The error of [generateResponse] for a missing [customData]. *)
Definition custom_data_required : KeyClaimError :=
  {| message := "Custom data is required for custom method";
     code := Js.Undefined;
     statusCode := None |}.

(** The characters of a lower-case hex digest. *)
Definition is_hex_char (c : ascii) : bool :=
  let n := N_of_ascii c in
  ((48 <=? n) && (n <=? 57) || (97 <=? n) && (n <=? 102))%N.

Fixpoint all_hex (s : string) : bool :=
  match s with
  | EmptyString => true
  | String c rest => is_hex_char c && all_hex rest
  end.

Definition is_byte (b : Z) : Prop := 0 <= b < 256.

(** [hay.includes(needle)] *)
Fixpoint includes (needle hay : string) : bool :=
  String.prefix needle hay
  || match hay with
     | EmptyString => false
     | String _ rest => includes needle rest
     end.

(** The request of [createChallenge] and the request of
    [validateChallenge], as a client sends them. *)
Definition creation_request (client : KeyClaimClient) (options : CreateChallengeOptions)
    : Axios.Request :=
  request_for client "/challenge/create"
    (Js.Obj [("ttl", Js.Num (or_number (ttl options) 30))]).

Definition validation_request (client : KeyClaimClient)
    (options : ValidateChallengeOptions) : Axios.Request :=
  request_for client "/challenge/validate" (validation_body options).

(** The state once [req] has been sent. *)
Definition sending (req : Axios.Request) (w : World) : World :=
  {| this := this w; net := net w; sent := sent w ++ [req] |}.

(** A value that [in] does not accept as its right operand. *)
Definition primitive (v : Js.value) : Prop :=
  match v with
  | Js.Obj _ | Js.Arr _ => False
  | _ => True
  end.

(** [undefined] or [null]. *)
Definition nullish (v : Js.value) : bool :=
  match v with
  | Js.Undefined | Js.Null => true
  | _ => false
  end.

(** How the [catch] clause of [validate] passes a completion on. *)
Definition through_validate_catch (c : Completion Js.value) : Completion Js.value :=
  match c with
  | Normal v => Normal v
  | Abrupt e => Abrupt (ThrownKeyClaim (handleError e "Validation flow failed"))
  end.

(** A request as every constructed client with the key [key] sends it. *)
Definition well_addressed (key : string) (r : Axios.Request) : Prop :=
  In ("Authorization", "Bearer " ++ key) (Axios.headers (Axios.config r))
  /\ Axios.baseURL (Axios.config r) = "https://keyclaim.org/api"
  /\ Axios.timeout (Axios.config r) = 30000
  /\ (Axios.url r = "/challenge/create" \/ Axios.url r = "/challenge/validate").

(* ===================================================================== *)
(** ** Sample clients and remote sides                                     *)
(* ===================================================================== *)

Module Sample.

(** The client of [new KeyClaimClient('kc_demo', 's')]. *)
Definition client : KeyClaimClient :=
  {| apiKey := "kc_demo";
     baseUrl := "https://keyclaim.org";
     secret := "s";
     axiosInstance :=
       {| Axios.baseURL := "https://keyclaim.org/api";
          Axios.headers :=
            [("Content-Type", "application/json");
             ("Authorization", "Bearer kc_demo")];
          Axios.timeout := 30000 |} |}.

(** A remote side that answers by endpoint, whatever came before. *)
Definition by_endpoint (create validation : Axios.Settled) : Axios.Transport :=
  fun _ req =>
    if String.eqb (Axios.url req) "/challenge/create" then create else validation.

Definition ok (body : Js.value) : Axios.Settled :=
  Axios.Resolved {| Axios.status := 200; Axios.data := body |}.

(** A status outside 2xx: axios rejects with the response attached. *)
Definition rejected (status : Z) (body : Js.value) : Axios.Settled :=
  Axios.Rejected
    {| Axios.message := "Request failed with status code " ++ Js.string_of_Z status;
       Axios.response := Some {| Axios.status := status; Axios.data := body |};
       Axios.request := true |}.

Definition unreachable : Axios.Settled :=
  Axios.Rejected
    {| Axios.message := "Network Error";
       Axios.response := None;
       Axios.request := true |}.

Definition world (net : Axios.Transport) : World :=
  {| this := client; net := net; sent := [] |}.

Definition issued : Axios.Settled :=
  ok (Js.Obj [("challenge", Js.Str "abc123"); ("expires_in", Js.Num 30)]).

Definition options : ValidateChallengeOptions :=
  {| challenge := Js.Str "abc123";
     response := Js.Str "abc123";
     decryptedChallenge := Js.Undefined |}.

End Sample.

(* ===================================================================== *)
(** ** The runtime model on known answers                                  *)
(* ===================================================================== *)

Module CryptoTests.
Import Crypto.

Example K_first_last : nth 0 K 0 = 0x428a2f98 /\ nth 63 K 0 = 0xc67178f2.
Proof. split; reflexivity. Qed.

Example H0_first_last : nth 0 H0 0 = 0x6a09e667 /\ nth 7 H0 0 = 0x5be0cd19.
Proof. split; reflexivity. Qed.

Example sha256_empty :
  createHash_sha256_hex "" =
  "e3b0c44298fc1c149afbf4c8996fb92427ae41e4649b934ca495991b7852b855".
Proof. vm_compute. reflexivity. Qed.

Example sha256_abc :
  createHash_sha256_hex "abc" =
  "ba7816bf8f01cfea414140de5dae2223b00361a396177a9cb410ff61f20015ad".
Proof. vm_compute. reflexivity. Qed.

Example sha256_two_blocks :
  createHash_sha256_hex
    "aaaaaaaaaaaaaaaaaaaaaaaaaaaaaaaaaaaaaaaaaaaaaaaaaaaaaaaa" =
  "b35439a4ac6f0948b6d6f9e3c6af0f5f590ce20f1bde7090ef7970686ec6738a".
Proof. vm_compute. reflexivity. Qed.

Example hmac_rfc4231_case2 :
  createHmac_sha256_hex "Jefe" "what do ya want for nothing?" =
  "5bdcc146bf60754e6a042426089575c75a003f089d2739839dec58b964ec3843".
Proof. vm_compute. reflexivity. Qed.

Example hmac_long_key :
  createHmac_sha256_hex
    "kkkkkkkkkkkkkkkkkkkkkkkkkkkkkkkkkkkkkkkkkkkkkkkkkkkkkkkkkkkkkkkkkkkkkk"
    "abc123" =
  "fe1fb208e21e90d21ff5cb8fb2f7cd44ff7f3bf8e333ba2b1b0335f2e1d41258".
Proof. vm_compute. reflexivity. Qed.
End CryptoTests.

Module RuntimeTests.
Import Js.

Example default_base_url :
  Base64.decode DEFAULT_BASE_URL_B64 = "https://keyclaim.org".
Proof. reflexivity. Qed.

Example stringify_object :
  stringify_in_template
    (Obj [("userId", Str "123"); ("skip", Undefined);
          ("n", Arr [Num 1; Null; Bool true; Undefined; Num (-20)])])
  = String.concat (String dquote "")
      ["{"; "userId"; ":"; "123"; ","; "n"; ":[1,null,true,null,-20]}"].
Proof. reflexivity. Qed.

Example ToString_array :
  ToString (Arr [Num 1; Null; Arr [Num 2; Num 3]; Str "x"; Obj []])
  = "1,,2,3,x,[object Object]".
Proof. reflexivity. Qed.

Example constructor_positional_sample :
  constructor (inr "kc_demo") (Some "s") = inr Sample.client.
Proof. reflexivity. Qed.

Example constructor_object_sample :
  constructor
    (inl {| KeyClaimConfig.apiKey := "kc_demo"; KeyClaimConfig.secret := Some "s" |})
    None
  = inr Sample.client.
Proof. reflexivity. Qed.
End RuntimeTests.

(* ===================================================================== *)
(** ** The format of a hex digest                                          *)
(* ===================================================================== *)

Section DigestFormat.

Import Crypto.

Lemma be_bytes_length n x : List.length (be_bytes n x) = n.
Proof.
  revert x. induction n as [| n IH]; intros x; simpl; [reflexivity |].
  rewrite length_app, IH. simpl. lia.
Qed.

Lemma be_bytes_are_bytes n x b : In b (be_bytes n x) -> is_byte b.
Proof.
  revert x. induction n as [| n IH]; intros x; simpl; [contradiction |].
  rewrite in_app_iff. intros [H | [<- | []]]; [exact (IH _ H) |].
  unfold is_byte. change 255 with (Z.ones 8).
  rewrite Z.land_ones by lia. apply Z.mod_pos_bound. lia.
Qed.

Lemma regs_bytes_length s : List.length (regs_bytes s) = 32%nat.
Proof.
  unfold regs_bytes. cbn [flat_map].
  rewrite !length_app, !be_bytes_length. reflexivity.
Qed.

Lemma regs_bytes_are_bytes s b : In b (regs_bytes s) -> is_byte b.
Proof.
  unfold regs_bytes. rewrite in_flat_map.
  intros [x [_ H]]. exact (be_bytes_are_bytes _ _ _ H).
Qed.

Lemma hex_length bs : String.length (hex bs) = (2 * List.length bs)%nat.
Proof.
  induction bs as [| b bs IH]; simpl; [reflexivity |].
  rewrite IH. lia.
Qed.

Lemma hex_digit_is_hex d : 0 <= d < 16 -> is_hex_char (hex_digit d) = true.
Proof.
  intros H.
  assert (E : d = 0 \/ d = 1 \/ d = 2 \/ d = 3 \/ d = 4 \/ d = 5 \/ d = 6 \/ d = 7
              \/ d = 8 \/ d = 9 \/ d = 10 \/ d = 11 \/ d = 12 \/ d = 13 \/ d = 14
              \/ d = 15) by lia.
  repeat (destruct E as [-> | E]; [reflexivity |]). subst d. reflexivity.
Qed.

Lemma hex_all_hex bs :
  (forall b, In b bs -> is_byte b) -> all_hex (hex bs) = true.
Proof.
  induction bs as [| b bs IH]; intros H; [reflexivity |].
  assert (Hb : is_byte b) by (apply H; left; reflexivity).
  unfold is_byte in Hb.
  cbn [hex all_hex]. rewrite !hex_digit_is_hex, IH.
  - reflexivity.
  - intros x Hx. apply H. right. exact Hx.
  - change 15 with (Z.ones 4). rewrite Z.land_ones by lia.
    apply Z.mod_pos_bound. lia.
  - rewrite Z.shiftr_div_pow2 by lia. change (2 ^ 4) with 16.
    split; [apply Z.div_pos; lia | apply Z.div_lt_upper_bound; lia].
Qed.

(** A digest is 64 lower-case hex characters, whatever was hashed. *)
Lemma createHash_sha256_hex_format data :
  String.length (createHash_sha256_hex data) = 64%nat
  /\ all_hex (createHash_sha256_hex data) = true.
Proof.
  unfold createHash_sha256_hex, sha256. split.
  - rewrite hex_length, regs_bytes_length. reflexivity.
  - apply hex_all_hex. intros b. apply regs_bytes_are_bytes.
Qed.

Lemma createHmac_sha256_hex_format key data :
  String.length (createHmac_sha256_hex key data) = 64%nat
  /\ all_hex (createHmac_sha256_hex key data) = true.
Proof.
  unfold createHmac_sha256_hex, hmac_sha256.
  match goal with |- context [hex (sha256 ?m)] => generalize m end.
  intros m. unfold sha256. split.
  - rewrite hex_length, regs_bytes_length. reflexivity.
  - apply hex_all_hex. intros b. apply regs_bytes_are_bytes.
Qed.

End DigestFormat.

(* ===================================================================== *)
(** ** What a method leaves behind                                         *)
(* ===================================================================== *)

Lemma silent_keeps {A} (c : M A) : silent c -> keeps_client c.
Proof. intros H w. rewrite H. split; reflexivity. Qed.

Lemma keeps_ret {A} (a : A) : keeps_client (ret a).
Proof. intros w. split; reflexivity. Qed.

Lemma keeps_throw {A} (e : Thrown) : keeps_client (@throw A e).
Proof. intros w. split; reflexivity. Qed.

Lemma keeps_post url body : keeps_client (post url body).
Proof.
  intros w. unfold post.
  destruct (net w (sent w) _); split; reflexivity.
Qed.

Lemma keeps_bind {A B} (c : M A) (k : A -> M B) :
  keeps_client c -> (forall a, keeps_client (k a)) -> keeps_client (bind c k).
Proof.
  intros Hc Hk w. unfold bind.
  specialize (Hc w). destruct (c w) as [[a | e] w1]; simpl in *.
  - destruct (Hk a w1) as [Ht Hn]. rewrite Ht, Hn. exact Hc.
  - exact Hc.
Qed.

Lemma keeps_try_catch {A} (c : M A) (h : Thrown -> M A) :
  keeps_client c -> (forall e, keeps_client (h e)) -> keeps_client (try_catch c h).
Proof.
  intros Hc Hh w. unfold try_catch.
  specialize (Hc w). destruct (c w) as [[a | e] w1]; simpl in *.
  - exact Hc.
  - destruct (Hh e w1) as [Ht Hn]. rewrite Ht, Hn. exact Hc.
Qed.

Create HintDb keeps.
#[local] Hint Resolve keeps_ret keeps_throw keeps_post : keeps.

Lemma generateResponse_silent challenge method customData :
  silent (generateResponse challenge method customData).
Proof.
  intros w. unfold generateResponse, bind, get_this, ret, throw.
  repeat match goal with
         | |- context [if ?b then _ else _] => destruct b
         | |- context [match ?v with Js.Undefined => _ | _ => _ end] => destruct v
         end; reflexivity.
Qed.

(** The generated response is a function of the secret alone, among all
    that the client and the network hold. *)
Lemma generateResponse_reads_secret challenge method customData w1 w2 :
  secret (this w1) = secret (this w2) ->
  fst (generateResponse challenge method customData w1)
  = fst (generateResponse challenge method customData w2).
Proof.
  intros Hs. unfold generateResponse, bind, get_this, ret, throw. simpl.
  rewrite Hs.
  repeat match goal with
         | |- context [if ?b then _ else _] => destruct b
         | |- context [match ?v with Js.Undefined => _ | _ => _ end] => destruct v
         end; reflexivity.
Qed.

Lemma keeps_destructure k v : keeps_client (destructure k v).
Proof. unfold destructure. destruct v; auto with keeps. Qed.

Lemma keeps_createChallenge options : keeps_client (createChallenge options).
Proof.
  unfold createChallenge.
  apply keeps_try_catch; [apply keeps_bind |]; auto with keeps.
Qed.

Lemma keeps_validateChallenge options : keeps_client (validateChallenge options).
Proof.
  unfold validateChallenge.
  apply keeps_try_catch; [apply keeps_bind; auto with keeps |].
  intros e. apply keeps_bind.
  - destruct (Js.truthy _); [destruct (Js.has _ _) |]; auto with keeps.
  - intros [|]; auto with keeps.
Qed.

Lemma keeps_validate method ttl0 customData :
  keeps_client (validate method ttl0 customData).
Proof.
  unfold validate.
  apply keeps_try_catch; [| auto with keeps].
  apply keeps_bind; [apply keeps_createChallenge | intros created].
  apply keeps_bind; [apply keeps_destructure | intros ch].
  apply keeps_bind; [apply silent_keeps, generateResponse_silent | intros r].
  apply keeps_validateChallenge.
Qed.

(* ===================================================================== *)
(** ** [generateResponse]                                                  *)
(* ===================================================================== *)

Section GenerateResponse.

Variables (challenge : string) (customData : Js.value) (w : World).

Lemma generateResponse_echo :
  generateResponse (Js.Str challenge) (Some "echo") customData w
  = (Normal (Js.Str challenge), w).
Proof. reflexivity. Qed.

Lemma generateResponse_hmac :
  generateResponse (Js.Str challenge) (Some "hmac") customData w
  = (Normal (Js.Str (Crypto.createHmac_sha256_hex (secret (this w)) challenge)), w).
Proof. reflexivity. Qed.

Lemma generateResponse_default_is_hmac :
  generateResponse (Js.Str challenge) None customData w
  = generateResponse (Js.Str challenge) (Some "hmac") customData w.
Proof. reflexivity. Qed.

Lemma generateResponse_hash :
  generateResponse (Js.Str challenge) (Some "hash") customData w
  = (Normal (Js.Str (Crypto.createHash_sha256_hex (challenge ++ secret (this w)))), w).
Proof. reflexivity. Qed.

End GenerateResponse.

(** C1. With method ['hash'], [generateResponse] returns the hex SHA-256
    digest of [challenge + secret], for every challenge string and every
    client; on a client whose secret is ["s"] the response to ["abc123"] is
    the digest of the literal ["abc123s"], which is [1c26...ae68]. *)
Theorem generateResponse_hash_is_sha256_of_concat :
  (forall (challenge : string) (customData : Js.value) (w : World),
      generateResponse (Js.Str challenge) (Some "hash") customData w
      = (Normal (Js.Str (Crypto.createHash_sha256_hex (challenge ++ secret (this w)))), w))
  /\ (forall key url inst remote log (customData : Js.value),
         let w := {| this := {| apiKey := key; baseUrl := url; secret := "s";
                                axiosInstance := inst |};
                     net := remote; sent := log |} in
         generateResponse (Js.Str "abc123") (Some "hash") customData w
         = (Normal (Js.Str (Crypto.createHash_sha256_hex "abc123s")), w))
  /\ Crypto.createHash_sha256_hex "abc123s"
     = "1c26003c2debb0ab6eabed12f78d13935da7ba98973b2f89f675ffeff848ae68".
Proof.
  split; [| split].
  - intros. apply generateResponse_hash.
  - intros. apply (generateResponse_hash "abc123").
  - vm_compute. reflexivity.
Qed.

(** C2. [generateResponse] is deterministic and has no side effect: on two
    clients constructed from the same credentials (by either form of the
    constructor), whatever the network state, a call completes the same
    way (same string, or same thrown error), leaves the whole state as it
    was, and a second call with the same inputs completes as the first. *)
Theorem generateResponse_deterministic_and_pure :
  forall (key : string) (sec : option string) (ignored : option string)
         (c1 c2 : KeyClaimClient)
         (Hobject : constructor (inl {| KeyClaimConfig.apiKey := key;
                                        KeyClaimConfig.secret := sec |}) ignored
                    = inr c1)
         (Hpositional : constructor (inr key) sec = inr c2)
         (challenge : Js.value) (method : option string) (customData : Js.value)
         (n1 n2 : Axios.Transport) (l1 l2 : list Axios.Request),
    let w1 := {| this := c1; net := n1; sent := l1 |} in
    let w2 := {| this := c2; net := n2; sent := l2 |} in
    exists r : Completion Js.value,
      generateResponse challenge method customData w1 = (r, w1)
      /\ generateResponse challenge method customData
           (snd (generateResponse challenge method customData w1)) = (r, w1)
      /\ generateResponse challenge method customData w2 = (r, w2).
Proof.
  intros key sec ignored c1 c2 Hobject Hpositional challenge method customData
         n1 n2 l1 l2 w1 w2.
  assert (Hsec : secret (this w1) = secret (this w2)).
  { unfold constructor in Hobject, Hpositional. simpl in Hobject, Hpositional.
    destruct (String.eqb key "" || negb (String.prefix "kc_" key)); [discriminate |].
    injection Hobject as <-. injection Hpositional as <-. reflexivity. }
  exists (fst (generateResponse challenge method customData w1)).
  pose proof (generateResponse_silent challenge method customData w1) as S1.
  pose proof (generateResponse_silent challenge method customData w2) as S2.
  pose proof (generateResponse_reads_secret challenge method customData w1 w2 Hsec) as E.
  rewrite S1.
  destruct (generateResponse challenge method customData w1) as [r1 w1'].
  destruct (generateResponse challenge method customData w2) as [r2 w2'].
  simpl in *. subst. auto.
Qed.

Lemma generateResponse_deterministic_and_pure_witness :
  exists r : Completion Js.value,
    generateResponse (Js.Str "abc123") (Some "hmac") Js.Undefined
      (Sample.world (Sample.by_endpoint Sample.unreachable Sample.unreachable))
    = (r, Sample.world (Sample.by_endpoint Sample.unreachable Sample.unreachable))
    /\ generateResponse (Js.Str "abc123") (Some "hmac") Js.Undefined
         (snd (generateResponse (Js.Str "abc123") (Some "hmac") Js.Undefined
                 (Sample.world (Sample.by_endpoint Sample.unreachable Sample.unreachable))))
       = (r, Sample.world (Sample.by_endpoint Sample.unreachable Sample.unreachable))
    /\ generateResponse (Js.Str "abc123") (Some "hmac") Js.Undefined
         {| this := Sample.client;
            net := Sample.by_endpoint Sample.issued Sample.unreachable;
            sent := [] |}
       = (r, {| this := Sample.client;
                net := Sample.by_endpoint Sample.issued Sample.unreachable;
                sent := [] |}).
Proof.
  exact (generateResponse_deterministic_and_pure
           "kc_demo" (Some "s") None Sample.client Sample.client
           eq_refl eq_refl
           (Js.Str "abc123") (Some "hmac") Js.Undefined
           (Sample.by_endpoint Sample.unreachable Sample.unreachable)
           (Sample.by_endpoint Sample.issued Sample.unreachable)
           [] []).
Defined.

Lemma prefix_refl (s : string) : String.prefix s s = true.
Proof.
  induction s as [| c s IH]; simpl; [reflexivity |].
  destruct (ascii_dec c c) as [_ | N]; [exact IH | contradiction N; reflexivity].
Qed.

Lemma includes_suffix (pre s : string) : includes s (pre ++ s) = true.
Proof.
  induction pre as [| c pre IH]; simpl.
  - destruct s as [| a s]; [reflexivity |].
    change (String.prefix (String a s) (String a s) || includes (String a s) s = true).
    rewrite prefix_refl. reflexivity.
  - rewrite IH. apply orb_true_r.
Qed.

Lemma append_cancel_l (p a b : string) : p ++ a = p ++ b -> a = b.
Proof.
  induction p as [| c p IH]; simpl; intros H; [exact H |].
  injection H as H. exact (IH H).
Qed.

Lemma generateResponse_custom_falsy challenge customData w :
  Js.truthy customData = false ->
  generateResponse challenge (Some "custom") customData w
  = (Abrupt (ThrownKeyClaim custom_data_required), w).
Proof.
  intros H. unfold generateResponse, bind, get_this, throw. simpl.
  rewrite H. reflexivity.
Qed.

(** The ['custom'] branch on the model; it is the program's result when
    the numbers of [customData] are safe integers ([Js.in_range]). *)
Lemma generateResponse_custom_truthy (challenge : string) customData w :
  Js.truthy customData = true ->
  generateResponse (Js.Str challenge) (Some "custom") customData w
  = (Normal (Js.Str (Crypto.createHash_sha256_hex
                       (challenge ++ ":" ++
                        match customData with
                        | Js.Str s => s
                        | _ => Js.stringify_in_template customData
                        end))), w).
Proof.
  intros H. unfold generateResponse, bind, get_this, ret. simpl.
  rewrite H. destruct customData; reflexivity.
Qed.

(** C5, as stated, fails: the empty string is supplied as [customData], and
    the call throws instead of returning the digest of ["abc123:"]. *)
Lemma generateResponse_custom_supplied_empty_counterexample :
  Js.Str "" <> Js.Undefined
  /\ fst (generateResponse (Js.Str "abc123") (Some "custom") (Js.Str "")
            (Sample.world (Sample.by_endpoint Sample.unreachable Sample.unreachable)))
     = Abrupt (ThrownKeyClaim custom_data_required)
  /\ fst (generateResponse (Js.Str "abc123") (Some "custom") (Js.Str "")
            (Sample.world (Sample.by_endpoint Sample.unreachable Sample.unreachable)))
     <> Normal (Js.Str (Crypto.createHash_sha256_hex ("abc123" ++ ":" ++ ""))).
Proof.
  split; [discriminate | split; [reflexivity | discriminate]].
Qed.

(** C5, amended. For every challenge string, [generateResponse(challenge,
    'custom')] without [customData] throws the [KeyClaimError] "Custom data
    is required for custom method"; with a truthy [customData] (whose
    numbers, if it has any, are safe integers) it returns the hex SHA-256
    of [challenge], [":"] and the data (the data itself if it is a string,
    its [JSON.stringify] text otherwise).  The hashed text determines a
    string datum, and on ["abc123"] the data ["hello"] and ["world"] get
    different responses. *)
Theorem generateResponse_custom_requires_truthy_data :
  forall (challenge : string) (w : World),
    generateResponse (Js.Str challenge) (Some "custom") Js.Undefined w
    = (Abrupt (ThrownKeyClaim custom_data_required), w)
    /\ (forall customData : Js.value,
           Js.truthy customData = true ->
           Js.in_range customData = true ->
           generateResponse (Js.Str challenge) (Some "custom") customData w
           = (Normal (Js.Str (Crypto.createHash_sha256_hex
                                (challenge ++ ":" ++
                                 match customData with
                                 | Js.Str s => s
                                 | _ => Js.stringify_in_template customData
                                 end))), w))
    /\ (forall d1 d2 : string,
           challenge ++ ":" ++ d1 = challenge ++ ":" ++ d2 -> d1 = d2)
    /\ fst (generateResponse (Js.Str "abc123") (Some "custom") (Js.Str "hello") w)
       <> fst (generateResponse (Js.Str "abc123") (Some "custom") (Js.Str "world") w).
Proof.
  intros challenge w. split; [| split; [| split]].
  - apply generateResponse_custom_falsy. reflexivity.
  - intros customData H _. apply generateResponse_custom_truthy. exact H.
  - intros d1 d2 H. apply append_cancel_l in H. injection H as H. exact H.
  - rewrite !generateResponse_custom_truthy by reflexivity.
    intros H.
    apply (f_equal (fun c => match c with
                             | Normal (Js.Str digest) => digest
                             | _ => ""
                             end)) in H.
    vm_compute in H. discriminate H.
Qed.

Lemma generateResponse_custom_requires_truthy_data_witness :
  Js.truthy (Js.Obj [("userId", Js.Str "123"); ("n", Js.Arr [Js.Num 1; Js.Null; Js.Bool true])]) = true
  /\ Js.in_range (Js.Obj [("userId", Js.Str "123"); ("n", Js.Arr [Js.Num 1; Js.Null; Js.Bool true])]) = true
  /\ generateResponse (Js.Str "abc123") (Some "custom")
       (Js.Obj [("userId", Js.Str "123"); ("n", Js.Arr [Js.Num 1; Js.Null; Js.Bool true])])
       (Sample.world (Sample.by_endpoint Sample.unreachable Sample.unreachable))
     = (Normal (Js.Str "7a7a68274d6736baafaaabed0b37dd99fcffd00d45f6ce3225792c5dd36bc9e3"),
        Sample.world (Sample.by_endpoint Sample.unreachable Sample.unreachable)).
Proof.
  split; [reflexivity | split; [reflexivity |]].
  refine (eq_trans
            (proj1 (proj2 (generateResponse_custom_requires_truthy_data "abc123"
                             (Sample.world (Sample.by_endpoint Sample.unreachable
                                                               Sample.unreachable))))
               (Js.Obj [("userId", Js.Str "123");
                        ("n", Js.Arr [Js.Num 1; Js.Null; Js.Bool true])])
               eq_refl eq_refl) _).
  vm_compute. reflexivity.
Defined.

(** C6. For every method string other than ['echo'], ['hmac'], ['hash'] and
    ['custom'], [generateResponse] throws a [KeyClaimError] whose message is
    "Unknown response method: " followed by that string, and so includes
    it. *)
Theorem generateResponse_unknown_method_throws :
  forall (method : string) (challenge customData : Js.value) (w : World),
    method <> "echo" -> method <> "hmac" -> method <> "hash" -> method <> "custom" ->
    exists e : KeyClaimError,
      generateResponse challenge (Some method) customData w
      = (Abrupt (ThrownKeyClaim e), w)
      /\ message e = "Unknown response method: " ++ method
      /\ includes method (message e) = true
      /\ code e = Js.Undefined
      /\ statusCode e = None.
Proof.
  intros method challenge customData w He Hm Hh Hc.
  exists {| message := "Unknown response method: " ++ method;
            code := Js.Undefined; statusCode := None |}.
  split; [| split; [reflexivity | split; [| split; reflexivity]]].
  - unfold generateResponse, bind, get_this, throw.
    apply String.eqb_neq in He, Hm, Hh, Hc.
    rewrite He, Hm, Hh, Hc. reflexivity.
  - apply (includes_suffix "Unknown response method: " method).
Qed.

Lemma generateResponse_unknown_method_throws_witness :
  exists e : KeyClaimError,
    generateResponse (Js.Str "abc123") (Some "md5") Js.Undefined
      (Sample.world (Sample.by_endpoint Sample.unreachable Sample.unreachable))
    = (Abrupt (ThrownKeyClaim e),
       Sample.world (Sample.by_endpoint Sample.unreachable Sample.unreachable))
    /\ message e = "Unknown response method: " ++ "md5"
    /\ includes "md5" (message e) = true
    /\ code e = Js.Undefined
    /\ statusCode e = None.
Proof.
  apply (generateResponse_unknown_method_throws "md5"); discriminate.
Defined.

(** C9. With method ['custom'], [generateResponse] throws the "Custom data
    is required for custom method" error for every falsy [customData]:
    [undefined] (the absent argument), [null], [false], [0] and the empty
    string are all rejected. *)
Theorem generateResponse_custom_rejects_every_falsy :
  (forall v : Js.value,
      In v [Js.Undefined; Js.Null; Js.Bool false; Js.Num 0; Js.Str ""] ->
      Js.truthy v = false)
  /\ (forall (challenge customData : Js.value) (w : World),
         Js.truthy customData = false ->
         generateResponse challenge (Some "custom") customData w
         = (Abrupt (ThrownKeyClaim custom_data_required), w)
         /\ message custom_data_required = "Custom data is required for custom method").
Proof.
  split.
  - intros v H. simpl in H.
    repeat (destruct H as [<- | H]; [reflexivity |]). contradiction.
  - intros challenge customData w H. split; [| reflexivity].
    apply generateResponse_custom_falsy. exact H.
Qed.

Lemma generateResponse_custom_rejects_every_falsy_witness :
  Js.truthy (Js.Num 0) = false
  /\ generateResponse (Js.Str "abc123") (Some "custom") (Js.Num 0)
       (Sample.world (Sample.by_endpoint Sample.unreachable Sample.unreachable))
     = (Abrupt (ThrownKeyClaim custom_data_required),
        Sample.world (Sample.by_endpoint Sample.unreachable Sample.unreachable)).
Proof.
  split.
  - apply (proj1 generateResponse_custom_rejects_every_falsy). simpl. tauto.
  - apply (proj2 generateResponse_custom_rejects_every_falsy).
    apply (proj1 generateResponse_custom_rejects_every_falsy). simpl. tauto.
Defined.

(* ===================================================================== *)
(** ** The constructor and the credentials                                 *)
(* ===================================================================== *)

Lemma constructor_object_eq_positional key sec ignored :
  constructor (inl {| KeyClaimConfig.apiKey := key; KeyClaimConfig.secret := sec |})
              ignored
  = constructor (inr key) sec.
Proof. reflexivity. Qed.

Lemma constructor_positional key sec :
  constructor (inr key) sec
  = if String.prefix "kc_" key
    then inr {| apiKey := key;
                baseUrl := "https://keyclaim.org";
                secret := or_string sec key;
                axiosInstance :=
                  {| Axios.baseURL := "https://keyclaim.org/api";
                     Axios.headers :=
                       [("Content-Type", "application/json");
                        ("Authorization", "Bearer " ++ key)];
                     Axios.timeout := 30000 |} |}
    else inl invalid_api_key.
Proof.
  unfold constructor.
  change (Base64.decode DEFAULT_BASE_URL_B64) with "https://keyclaim.org".
  cbv beta iota zeta.
  destruct key as [| c key]; [reflexivity |].
  change (String.eqb (String c key) "") with false.
  destruct (String.prefix "kc_" (String c key)); reflexivity.
Qed.

(** C7. An API key that does not start with ["kc_"] (the empty string
    included) makes the constructor throw a [KeyClaimError], in the object
    form and in the positional form; a key with the prefix makes both
    forms succeed, with that key. *)
Theorem constructor_accepts_exactly_kc_keys :
  forall (key : string) (sec ignored : option string),
    String.prefix "kc_" "" = false
    /\ (String.prefix "kc_" key = false ->
        constructor (inl {| KeyClaimConfig.apiKey := key;
                            KeyClaimConfig.secret := sec |}) ignored
        = inl invalid_api_key
        /\ constructor (inr key) sec = inl invalid_api_key)
    /\ (String.prefix "kc_" key = true ->
        exists c : KeyClaimClient,
          constructor (inl {| KeyClaimConfig.apiKey := key;
                              KeyClaimConfig.secret := sec |}) ignored
          = inr c
          /\ constructor (inr key) sec = inr c
          /\ apiKey c = key).
Proof.
  intros key sec ignored. split; [reflexivity |].
  rewrite constructor_object_eq_positional, constructor_positional.
  split; intros H; rewrite H.
  - split; reflexivity.
  - eexists. split; [reflexivity | split; reflexivity].
Qed.

Lemma constructor_accepts_exactly_kc_keys_witness :
  (String.prefix "kc_" "sk_live" = false
   /\ constructor (inl {| KeyClaimConfig.apiKey := "sk_live";
                          KeyClaimConfig.secret := Some "s" |}) None
      = inl invalid_api_key
   /\ constructor (inr "sk_live") (Some "s") = inl invalid_api_key)
  /\ (String.prefix "kc_" "kc_demo" = true
      /\ exists c : KeyClaimClient,
          constructor (inl {| KeyClaimConfig.apiKey := "kc_demo";
                              KeyClaimConfig.secret := Some "s" |}) None
          = inr c
          /\ constructor (inr "kc_demo") (Some "s") = inr c
          /\ apiKey c = "kc_demo").
Proof.
  split.
  - split; [reflexivity |].
    apply (proj1 (proj2 (constructor_accepts_exactly_kc_keys "sk_live" (Some "s") None))).
    reflexivity.
  - split; [reflexivity |].
    apply (proj2 (proj2 (constructor_accepts_exactly_kc_keys "kc_demo" (Some "s") None))).
    reflexivity.
Defined.

Lemma after_keeps_client calls :
  forall w, this (after calls w) = this w.
Proof.
  induction calls as [| call rest IH]; intros w; simpl; [reflexivity |].
  rewrite IH.
  destruct call; simpl.
  - apply keeps_createChallenge.
  - rewrite generateResponse_silent. reflexivity.
  - apply keeps_validateChallenge.
  - apply keeps_validate.
Qed.

(** C8, as stated, fails: the empty string is set as the secret, and the
    client's secret is the API key. *)
Lemma constructor_empty_secret_counterexample :
  exists c : KeyClaimClient,
    constructor (inr "kc_demo") (Some "") = inr c
    /\ constructor (inl {| KeyClaimConfig.apiKey := "kc_demo";
                           KeyClaimConfig.secret := Some "" |}) None = inr c
    /\ secret c = "kc_demo"
    /\ secret c <> "".
Proof.
  eexists. split; [reflexivity | split; [reflexivity | split; [reflexivity |]]].
  discriminate.
Qed.

(** C8, amended. After a successful construction (either form) the client's
    secret is the supplied secret when one is set and is not the empty
    string, and is the API key when the secret is unset or empty; the
    client object, and so its [apiKey] and [secret], is the same after any
    sequence of [createChallenge], [generateResponse], [validateChallenge]
    and [validate] calls, whatever the remote side answers. *)
Theorem credentials_fixed_at_construction :
  forall (key : string) (sec ignored : option string) (c : KeyClaimClient),
    constructor (inl {| KeyClaimConfig.apiKey := key;
                        KeyClaimConfig.secret := sec |}) ignored = inr c
    \/ constructor (inr key) sec = inr c ->
    apiKey c = key
    /\ (forall s : string, sec = Some s -> s <> "" -> secret c = s)
    /\ (sec = None \/ sec = Some "" -> secret c = key)
    /\ (forall (calls : list Call) (remote : Axios.Transport)
               (log : list Axios.Request),
           let w' := after calls {| this := c; net := remote; sent := log |} in
           this w' = c /\ apiKey (this w') = key /\ secret (this w') = secret c).
Proof.
  intros key sec ignored c H.
  rewrite constructor_object_eq_positional in H.
  assert (Hc : constructor (inr key) sec = inr c) by (destruct H; assumption).
  clear H. rewrite constructor_positional in Hc.
  destruct (String.prefix "kc_" key); [| discriminate].
  injection Hc as <-. simpl.
  split; [reflexivity | split; [| split]].
  - intros s -> Hs. simpl. apply String.eqb_neq in Hs. rewrite Hs. reflexivity.
  - intros [-> | ->]; reflexivity.
  - intros calls remote log. rewrite after_keeps_client. simpl.
    split; [reflexivity | split; reflexivity].
Qed.

Lemma credentials_fixed_at_construction_witness :
  apiKey Sample.client = "kc_demo"
  /\ secret Sample.client = "s"
  /\ this (after [CallValidate (Some "hash") None Js.Undefined;
                  CallCreateChallenge {| ttl := Some 60 |}]
             (Sample.world (Sample.by_endpoint Sample.issued Sample.unreachable)))
     = Sample.client.
Proof.
  pose proof (credentials_fixed_at_construction
                "kc_demo" (Some "s") None Sample.client (or_intror eq_refl)) as H.
  split; [exact (proj1 H) | split].
  - apply (proj1 (proj2 H) "s"); [reflexivity | discriminate].
  - exact (proj1 (proj2 (proj2 (proj2 H))
                    [CallValidate (Some "hash") None Js.Undefined;
                     CallCreateChallenge {| ttl := Some 60 |}]
                    (Sample.by_endpoint Sample.issued Sample.unreachable) [])).
Defined.

(* ===================================================================== *)
(** ** [validateChallenge]                                                 *)
(* ===================================================================== *)

Section ValidateChallenge.

Variables (options : ValidateChallengeOptions) (w : World).

(** The state after the one request of [validateChallenge]. *)
Let w_sent : World :=
  {| this := this w;
     net := net w;
     sent := sent w ++ [request_for (this w) "/challenge/validate"
                                    (validation_body options)] |}.

Let answer : Axios.Settled :=
  net w (sent w)
      (request_for (this w) "/challenge/validate" (validation_body options)).

Lemma validateChallenge_resolved r :
  answer = Axios.Resolved r ->
  validateChallenge options w = (Normal (Axios.data r), w_sent).
Proof.
  unfold answer, validateChallenge, try_catch, bind, post, ret. intros H.
  rewrite H. reflexivity.
Qed.

(** On a rejection that carries a response whose body is an object with
    a [valid] property, the catch clause returns the synthesized
    result. *)
Lemma validateChallenge_rejected_with_verdict e resp props verdict :
  answer = Axios.Rejected e ->
  Axios.response e = Some resp ->
  Axios.data resp = Js.Obj props ->
  Js.lookup "valid" props = Some verdict ->
  validateChallenge options w
  = (Normal (Js.Obj [("valid", Js.Bool false);
                     ("error", Js.or (Js.get "error" (Js.Obj props))
                                     (Js.Str "Validation failed"))]),
     w_sent).
Proof.
  unfold answer, validateChallenge, try_catch, bind, post, ret, throw.
  intros He Hr Hd Hv. rewrite He. simpl. rewrite Hr, Hd. simpl.
  rewrite Hv. reflexivity.
Qed.

(** Whatever the catch clause returns has that shape. *)
Lemma validateChallenge_rejected_normal e result w' :
  answer = Axios.Rejected e ->
  validateChallenge options w = (Normal result, w') ->
  exists resp,
    Axios.response e = Some resp
    /\ result = Js.Obj [("valid", Js.Bool false);
                        ("error", Js.or (Js.get "error" (Axios.data resp))
                                        (Js.Str "Validation failed"))]
    /\ w' = w_sent.
Proof.
  unfold answer, validateChallenge, try_catch, bind, post, ret, throw.
  intros He. rewrite He. simpl.
  destruct (Axios.response e) as [resp |]; simpl; [| discriminate].
  destruct (Js.truthy (Axios.data resp)); [| discriminate].
  destruct (Js.has "valid" (Axios.data resp)) as [[|] |]; try discriminate.
  intros H. injection H as <- <-. exists resp. auto.
Qed.

End ValidateChallenge.

(** C3, as stated, fails: a 400 response whose body has both [valid] and an
    [error] field, the empty string, is answered with the error
    "Validation failed", not with the body's [error] field. *)
Lemma validateChallenge_empty_error_counterexample :
  Js.lookup "error" [("valid", Js.Bool false); ("error", Js.Str "")]
  = Some (Js.Str "")
  /\ fst (validateChallenge Sample.options
            (Sample.world
               (Sample.by_endpoint Sample.issued
                  (Sample.rejected 400
                     (Js.Obj [("valid", Js.Bool false); ("error", Js.Str "")])))))
     = Normal (Js.Obj [("valid", Js.Bool false);
                       ("error", Js.Str "Validation failed")])
  /\ fst (validateChallenge Sample.options
            (Sample.world
               (Sample.by_endpoint Sample.issued
                  (Sample.rejected 400
                     (Js.Obj [("valid", Js.Bool false); ("error", Js.Str "")])))))
     <> Normal (Js.Obj [("valid", Js.Bool false); ("error", Js.Str "")]).
Proof.
  split; [reflexivity | split; [reflexivity | discriminate]].
Qed.

(** C3, amended. When the validation request is rejected with a response
    whose body is an object with a [valid] property, [validateChallenge]
    does not throw: it returns [{valid: false, error: e}], where [e] is the
    body's [error] field when that field is present and truthy (a
    non-empty string, for one) and the string "Validation failed"
    otherwise. *)
Theorem validateChallenge_rejection_with_verdict_returns :
  forall (options : ValidateChallengeOptions) (w : World)
         (e : Axios.AxiosError) (resp : Axios.AxiosResponse)
         (props : list (string * Js.value)) (verdict : Js.value),
    net w (sent w)
        (request_for (this w) "/challenge/validate" (validation_body options))
    = Axios.Rejected e ->
    Axios.response e = Some resp ->
    Axios.data resp = Js.Obj props ->
    Js.lookup "valid" props = Some verdict ->
    exists err : Js.value,
      fst (validateChallenge options w)
      = Normal (Js.Obj [("valid", Js.Bool false); ("error", err)])
      /\ (forall x, Js.lookup "error" props = Some x -> Js.truthy x = true -> err = x)
      /\ (forall x, Js.lookup "error" props = Some x -> Js.truthy x = false ->
                    err = Js.Str "Validation failed")
      /\ (Js.lookup "error" props = None -> err = Js.Str "Validation failed").
Proof.
  intros options w e resp props verdict He Hr Hd Hv.
  exists (Js.or (Js.get "error" (Js.Obj props)) (Js.Str "Validation failed")).
  split.
  - rewrite (validateChallenge_rejected_with_verdict options w e resp props verdict)
      by assumption.
    reflexivity.
  - unfold Js.or, Js.get.
    split; [| split].
    + intros x Hx Ht. rewrite Hx, Ht. reflexivity.
    + intros x Hx Ht. rewrite Hx, Ht. reflexivity.
    + intros Hx. rewrite Hx. reflexivity.
Qed.

Lemma validateChallenge_rejection_with_verdict_returns_witness :
  fst (validateChallenge Sample.options
         (Sample.world
            (Sample.by_endpoint Sample.issued
               (Sample.rejected 400
                  (Js.Obj [("valid", Js.Bool false); ("error", Js.Str "expired")])))))
  = Normal (Js.Obj [("valid", Js.Bool false); ("error", Js.Str "expired")]).
Proof.
  destruct (validateChallenge_rejection_with_verdict_returns
              Sample.options
              (Sample.world
                 (Sample.by_endpoint Sample.issued
                    (Sample.rejected 400
                       (Js.Obj [("valid", Js.Bool false);
                                ("error", Js.Str "expired")]))))
              _ _ _ (Js.Bool false) eq_refl eq_refl eq_refl eq_refl)
    as [err [Hres [Hpresent _]]].
  rewrite Hres, (Hpresent (Js.Str "expired") eq_refl eq_refl).
  reflexivity.
Defined.

(** C10. Whenever [validateChallenge] returns from its error path (the
    request was rejected and the call completed normally), the result is an
    object with exactly the two properties [valid], which is [false], and
    [error]; the response body enters it through its [error] field only, so
    a [valid: true], a [signature] or a [quota] of the body are not in
    the result. *)
Theorem validateChallenge_error_path_result_shape :
  forall (options : ValidateChallengeOptions) (w w' : World)
         (e : Axios.AxiosError) (result : Js.value),
    net w (sent w)
        (request_for (this w) "/challenge/validate" (validation_body options))
    = Axios.Rejected e ->
    validateChallenge options w = (Normal result, w') ->
    exists (resp : Axios.AxiosResponse) (props : list (string * Js.value)),
      Axios.response e = Some resp
      /\ result = Js.Obj props
      /\ map fst props = ["valid"; "error"]
      /\ Js.lookup "valid" props = Some (Js.Bool false)
      /\ Js.lookup "error" props
         = Some (Js.or (Js.get "error" (Axios.data resp)) (Js.Str "Validation failed"))
      /\ Js.get "signature" result = Js.Undefined
      /\ Js.get "quota" result = Js.Undefined.
Proof.
  intros options w w' e result He Hrun.
  destruct (validateChallenge_rejected_normal options w e result w' He Hrun)
    as [resp [Hr [-> _]]].
  exists resp. eexists.
  split; [exact Hr | split; [reflexivity |]].
  repeat (split; [reflexivity |]). reflexivity.
Qed.

Lemma validateChallenge_error_path_result_shape_witness :
  let body :=
    Js.Obj [("valid", Js.Bool true);
            ("signature", Js.Str "3045022100");
            ("quota", Js.Obj [("used", Js.Num 1); ("remaining", Js.Num 99);
                              ("quota", Js.Num 100)]);
            ("error", Js.Str "expired")] in
  let w := Sample.world (Sample.by_endpoint Sample.issued (Sample.rejected 400 body)) in
  fst (validateChallenge Sample.options w)
  = Normal (Js.Obj [("valid", Js.Bool false); ("error", Js.Str "expired")])
  /\ exists (resp : Axios.AxiosResponse) (props : list (string * Js.value)),
      Some {| Axios.status := 400; Axios.data := body |} = Some resp
      /\ Js.Obj [("valid", Js.Bool false); ("error", Js.Str "expired")] = Js.Obj props
      /\ map fst props = ["valid"; "error"]
      /\ Js.lookup "valid" props = Some (Js.Bool false)
      /\ Js.lookup "error" props
         = Some (Js.or (Js.get "error" (Axios.data resp)) (Js.Str "Validation failed"))
      /\ Js.get "signature" (Js.Obj [("valid", Js.Bool false); ("error", Js.Str "expired")])
         = Js.Undefined
      /\ Js.get "quota" (Js.Obj [("valid", Js.Bool false); ("error", Js.Str "expired")])
         = Js.Undefined.
Proof.
  intros body w. split; [reflexivity |].
  exact (validateChallenge_error_path_result_shape
           Sample.options w _ _ _ eq_refl eq_refl).
Defined.

(* ===================================================================== *)
(** ** [handleError] and [validate]                                        *)
(* ===================================================================== *)

Lemma handleError_with_response e resp defaultMessage :
  Axios.response e = Some resp ->
  statusCode (handleError (ThrownAxios e) defaultMessage) = Some (Axios.status resp)
  /\ code (handleError (ThrownAxios e) defaultMessage)
     = Js.opt_get "error" (Axios.data resp).
Proof.
  intros H. unfold handleError. simpl. rewrite H. split; reflexivity.
Qed.

Lemma handleError_own e defaultMessage :
  own_error e ->
  handleError e defaultMessage
  = {| message := if String.eqb (message_of e) "" then defaultMessage else message_of e;
       code := Js.Str "unknown_error";
       statusCode := None |}.
Proof.
  intros H. destruct e as [a | k | m]; [contradiction | |];
    unfold handleError, new_KeyClaimError, Js.or; simpl;
    match goal with |- context [String.eqb ?s ""] => destruct (String.eqb s "") end;
    reflexivity.
Qed.

Lemma throws_own_bind {A B} (c : M A) (k : A -> M B) :
  throws_own c -> (forall a, throws_own (k a)) -> throws_own (bind c k).
Proof.
  intros Hc Hk w e w'. unfold bind.
  destruct (c w) as [[a | e1] w1] eqn:E.
  - apply Hk.
  - intros H. injection H as <- <-. exact (Hc _ _ _ E).
Qed.

Lemma throws_own_createChallenge options : throws_own (createChallenge options).
Proof.
  intros w e w'. unfold createChallenge, try_catch, bind, post, ret, throw.
  destruct (net w (sent w) _); intros H; [discriminate |].
  injection H as <- <-. exact I.
Qed.

Lemma throws_own_destructure k v : throws_own (destructure k v).
Proof.
  intros w e w'. unfold destructure, throw, ret.
  destruct v; intros H; try discriminate; injection H as <- <-; exact I.
Qed.

Lemma throws_own_generateResponse challenge method customData :
  throws_own (generateResponse challenge method customData).
Proof.
  intros w e w'. unfold generateResponse, bind, get_this, ret, throw.
  repeat match goal with
         | |- context [if ?b then _ else _] => destruct b
         | |- context [match ?v with Js.Undefined => _ | _ => _ end] => destruct v
         end;
    intros H; try discriminate; injection H as <- <-; exact I.
Qed.

Lemma throws_own_validateChallenge options : throws_own (validateChallenge options).
Proof.
  intros w e w'. unfold validateChallenge, try_catch, bind, post, ret, throw.
  destruct (net w (sent w) _) as [r | a]; [discriminate |].
  destruct (Js.truthy _); [destruct (Js.has _ _) as [[|] |] |];
    intros H; try discriminate; injection H as <- <-; exact I.
Qed.

(** Every error of [validate] went through [handleError] a second time, as
    a value without [response]: it is a [KeyClaimError] with the code
    ['unknown_error'] and no status code. *)
Lemma validate_abrupt method ttl0 customData w e w' :
  validate method ttl0 customData w = (Abrupt e, w') ->
  exists m : string,
    m <> ""
    /\ e = ThrownKeyClaim {| message := m;
                             code := Js.Str "unknown_error";
                             statusCode := None |}.
Proof.
  unfold validate, try_catch.
  match goal with |- context [bind ?c ?k] => set (body := bind c k) end.
  assert (Hbody : throws_own body).
  { apply throws_own_bind; [apply throws_own_createChallenge | intros created].
    apply throws_own_bind; [apply throws_own_destructure | intros ch].
    apply throws_own_bind; [apply throws_own_generateResponse | intros r].
    apply throws_own_validateChallenge. }
  destruct (body w) as [[a | e1] w1] eqn:E; [discriminate |].
  unfold throw. intros H. injection H as <- <-.
  rewrite (handleError_own e1 _ (Hbody _ _ _ E)).
  eexists. split; [| reflexivity].
  destruct (String.eqb_spec (message_of e1) ""); [discriminate | assumption].
Qed.

(** C4: the claim does not hold of [validate].  The remote side rejects the
    creation request with status 429 and the body [{error: "rate_limited"}]:
    [createChallenge] alone raises a [KeyClaimError] with status code 429
    and the code of the body, [validate] raises one with the same message,
    the code ['unknown_error'] and no status code.  The same happens for a
    401 on the validation request, and an unreachable server is reported
    with the code ['unknown_error'] in place of ['network_error']. *)
Theorem validate_drops_status_code :
  let offline :=
    Sample.world (Sample.by_endpoint Sample.unreachable Sample.unreachable) in
  let limited :=
    Sample.world
      (Sample.by_endpoint
         (Sample.rejected 429 (Js.Obj [("error", Js.Str "rate_limited")]))
         Sample.unreachable) in
  let denied :=
    Sample.world
      (Sample.by_endpoint
         Sample.issued
         (Sample.rejected 401 (Js.Obj [("error", Js.Str "unauthorized")]))) in
  fst (createChallenge {| ttl := Some 30 |} limited)
  = Abrupt (ThrownKeyClaim {| message := "rate_limited";
                              code := Js.Str "rate_limited";
                              statusCode := Some 429 |})
  /\ fst (validate (Some "echo") (Some 30) Js.Undefined limited)
     = Abrupt (ThrownKeyClaim {| message := "rate_limited";
                                 code := Js.Str "unknown_error";
                                 statusCode := None |})
  /\ fst (validateChallenge Sample.options denied)
     = Abrupt (ThrownKeyClaim {| message := "unauthorized";
                                 code := Js.Str "unauthorized";
                                 statusCode := Some 401 |})
  /\ fst (validate (Some "echo") (Some 30) Js.Undefined denied)
     = Abrupt (ThrownKeyClaim {| message := "unauthorized";
                                 code := Js.Str "unknown_error";
                                 statusCode := None |})
  /\ fst (createChallenge {| ttl := Some 30 |} offline)
     = Abrupt (ThrownKeyClaim
                 {| message := "Network error: No response received from server";
                    code := Js.Str "network_error";
                    statusCode := None |})
  /\ fst (validate (Some "echo") (Some 30) Js.Undefined offline)
     = Abrupt (ThrownKeyClaim
                 {| message := "Network error: No response received from server";
                    code := Js.Str "unknown_error";
                    statusCode := None |}).
Proof.
  cbv zeta. repeat (split; [reflexivity |]). reflexivity.
Qed.

(* ===================================================================== *)
(** ** [createChallenge]: the request and the outcome                      *)
(* ===================================================================== *)

Lemma or_truthy a b : Js.truthy a = true -> Js.or a b = a.
Proof. intros H. unfold Js.or. rewrite H. reflexivity. Qed.

Lemma or_falsy a b : Js.truthy a = false -> Js.or a b = b.
Proof. intros H. unfold Js.or. rewrite H. reflexivity. Qed.

Lemma truthy_Str text : text <> "" -> Js.truthy (Js.Str text) = true.
Proof. intros H. simpl. apply String.eqb_neq in H. rewrite H. reflexivity. Qed.

Lemma createChallenge_run options w :
  createChallenge options w
  = (match net w (sent w) (creation_request (this w) options) with
     | Axios.Resolved r => Normal (Axios.data r)
     | Axios.Rejected e =>
         Abrupt (ThrownKeyClaim
                   (handleError (ThrownAxios e) "Failed to create challenge"))
     end,
     sending (creation_request (this w) options) w).
Proof.
  unfold createChallenge, try_catch, bind, post, ret, throw, creation_request, sending.
  destruct (net w (sent w) _); reflexivity.
Qed.

(** X1. [createChallenge] sends exactly one request, whatever the answer:
    a POST to [/challenge/create] whose body is [{ttl: t}], where [t] is
    the given [ttl] when it is set and not [0], and [30] when it is unset
    or [0]; a [ttl] of [0] is never sent. *)
Theorem createChallenge_sends_one_ttl_request :
  forall (options : CreateChallengeOptions) (w : World),
  exists t : Z,
    sent (snd (createChallenge options w))
    = (sent w ++ [request_for (this w) "/challenge/create"
                              (Js.Obj [("ttl", Js.Num t)])])%list
    /\ t <> 0
    /\ (ttl options = None \/ ttl options = Some 0 -> t = 30)
    /\ (forall n, ttl options = Some n -> n <> 0 -> t = n).
Proof.
  intros options w. exists (or_number (ttl options) 30).
  rewrite createChallenge_run. split; [reflexivity |].
  unfold or_number. destruct (ttl options) as [n |].
  - destruct (Z.eqb_spec n 0) as [-> | Hn].
    + split; [lia | split; [reflexivity |]].
      intros m H. injection H as <-. intros N. contradiction N. reflexivity.
    + split; [exact Hn | split].
      * intros [H | H]; [discriminate | injection H as ->; contradiction Hn; reflexivity].
      * intros m H _. injection H as <-. reflexivity.
  - split; [lia | split; [reflexivity |]]. intros m H. discriminate.
Qed.

(** X2. [createChallenge] returns the body of a resolved answer as it is,
    and turns every rejection into a [KeyClaimError]: with the status of
    the response and the body's [error] as code when there is a response;
    with the code ['network_error'] when the request went out and nothing
    came back; with the code ['unknown_error'] and the message of the
    rejection (or "Failed to create challenge" when that is empty)
    otherwise. *)
Theorem createChallenge_outcome :
  forall (options : CreateChallengeOptions) (w : World),
    (forall r, net w (sent w) (creation_request (this w) options) = Axios.Resolved r ->
               fst (createChallenge options w) = Normal (Axios.data r))
    /\ (forall e,
           net w (sent w) (creation_request (this w) options) = Axios.Rejected e ->
           exists k : KeyClaimError,
             fst (createChallenge options w) = Abrupt (ThrownKeyClaim k)
             /\ statusCode k = option_map Axios.status (Axios.response e)
             /\ (forall resp, Axios.response e = Some resp ->
                              code k = Js.opt_get "error" (Axios.data resp))
             /\ (forall resp text,
                    Axios.response e = Some resp ->
                    Js.opt_get "error" (Axios.data resp) = Js.Str text ->
                    text <> "" -> message k = text)
             /\ (forall resp text,
                    Axios.response e = Some resp ->
                    Js.truthy (Js.opt_get "error" (Axios.data resp)) = false ->
                    Js.opt_get "message" (Axios.data resp) = Js.Str text ->
                    text <> "" -> message k = text)
             /\ (Axios.response e = None -> Axios.request e = true ->
                 code k = Js.Str "network_error"
                 /\ message k = "Network error: No response received from server")
             /\ (Axios.response e = None -> Axios.request e = false ->
                 code k = Js.Str "unknown_error"
                 /\ message k = if String.eqb (Axios.message e) ""
                                then "Failed to create challenge"
                                else Axios.message e)).
Proof.
  intros options w. split.
  - intros r H. rewrite createChallenge_run, H. reflexivity.
  - intros e H. rewrite createChallenge_run, H. eexists. split; [reflexivity |].
    unfold handleError. simpl.
    destruct (Axios.response e) as [resp |]; simpl.
    + split; [reflexivity | split; [| split; [| split; [| split; discriminate]]]].
      * intros resp' E. injection E as <-. reflexivity.
      * intros resp' text E Herr Htext. injection E as <-.
        rewrite Herr.
        rewrite !(or_truthy (Js.Str text)) by (apply truthy_Str; exact Htext).
        reflexivity.
      * intros resp' text E Herr Hmsg Htext. injection E as <-.
        rewrite (or_falsy _ _ Herr), Hmsg.
        rewrite !(or_truthy (Js.Str text)) by (apply truthy_Str; exact Htext).
        reflexivity.
    + destruct (Axios.request e).
      * split; [reflexivity | split; [discriminate | split; [discriminate |
          split; [discriminate | split]]]].
        -- intros _ _. split; reflexivity.
        -- intros _ E. discriminate E.
      * split; [reflexivity | split; [discriminate | split; [discriminate |
          split; [discriminate | split]]]].
        -- intros _ E. discriminate E.
        -- intros _ _. split; [reflexivity |].
           unfold new_KeyClaimError, Js.or. simpl.
           destruct (String.eqb (Axios.message e) ""); reflexivity.
Qed.

Lemma createChallenge_outcome_witness :
  exists k : KeyClaimError,
    fst (createChallenge {| ttl := Some 60 |}
           (Sample.world
              (Sample.by_endpoint
                 (Sample.rejected 401 (Js.Obj [("message", Js.Str "bad key")]))
                 Sample.unreachable)))
    = Abrupt (ThrownKeyClaim k)
    /\ statusCode k = Some 401
    /\ code k = Js.Undefined
    /\ message k = "bad key".
Proof.
  destruct (proj2 (createChallenge_outcome
                     {| ttl := Some 60 |}
                     (Sample.world
                        (Sample.by_endpoint
                           (Sample.rejected 401 (Js.Obj [("message", Js.Str "bad key")]))
                           Sample.unreachable)))
                  _ eq_refl) as [k [Hk [Hs [Hc [_ [Hm _]]]]]].
  exists k. split; [exact Hk | split; [exact Hs | split; [exact (Hc _ eq_refl) |]]].
  apply (Hm _ "bad key" eq_refl eq_refl eq_refl). discriminate.
Defined.

(* ===================================================================== *)
(** ** [validateChallenge]: the request and the other rejections           *)
(* ===================================================================== *)

Lemma validateChallenge_state options w :
  snd (validateChallenge options w)
  = sending (validation_request (this w) options) w.
Proof.
  unfold validateChallenge, try_catch, bind, post, ret, throw,
    validation_request, sending.
  destruct (net w (sent w) _) as [r | e]; [reflexivity |].
  simpl. destruct (Axios.response e) as [resp |]; simpl; [| reflexivity].
  destruct (Js.truthy _); [| reflexivity].
  destruct (Js.has _ _) as [[|] |]; reflexivity.
Qed.

(** X3. [validateChallenge] sends exactly one request, whether it returns
    or throws: a POST to [/challenge/validate] whose body has the three
    properties [challenge], [response] and [decryptedChallenge] of the
    options, in that order; the client and the remote side stay as they
    were. *)
Theorem validateChallenge_sends_one_request :
  forall (options : ValidateChallengeOptions) (w : World),
    snd (validateChallenge options w)
    = {| this := this w;
         net := net w;
         sent := sent w ++
                 [request_for (this w) "/challenge/validate"
                    (Js.Obj [("challenge", challenge options);
                             ("response", response options);
                             ("decryptedChallenge", decryptedChallenge options)])] |}.
Proof.
  intros options w.
  unfold validateChallenge, try_catch, bind, post, ret, throw.
  destruct (net w (sent w) _) as [r | e]; [reflexivity |].
  simpl. destruct (Axios.response e) as [resp |]; simpl; [| reflexivity].
  destruct (Js.truthy (Axios.data resp)); [| reflexivity].
  destruct (Js.has "valid" (Axios.data resp)) as [[|] |]; reflexivity.
Qed.

(** X4. When the validation request is rejected with a response whose body
    is a truthy primitive (a non-empty string such as the text of an error
    page, a non-zero number, [true]), [validateChallenge] raises the
    runtime's [TypeError] of the [in] operator, not a [KeyClaimError]. *)
Theorem validateChallenge_primitive_body_raises_TypeError :
  forall (options : ValidateChallengeOptions) (w : World)
         (e : Axios.AxiosError) (resp : Axios.AxiosResponse),
    net w (sent w) (validation_request (this w) options) = Axios.Rejected e ->
    Axios.response e = Some resp ->
    Js.truthy (Axios.data resp) = true ->
    primitive (Axios.data resp) ->
    fst (validateChallenge options w)
    = Abrupt (ThrownType (in_type_error "valid" (Axios.data resp)))
    /\ forall k, fst (validateChallenge options w) <> Abrupt (ThrownKeyClaim k).
Proof.
  intros options w e resp He Hr Ht Hp.
  assert (E : fst (validateChallenge options w)
              = Abrupt (ThrownType (in_type_error "valid" (Axios.data resp)))).
  { unfold validateChallenge, try_catch, bind, post, ret, throw.
    unfold validation_request in He. rewrite He. simpl. rewrite Hr, Ht.
    destruct (Axios.data resp); simpl in *; try reflexivity; contradiction. }
  split; [exact E |]. intros k. rewrite E. discriminate.
Qed.

Lemma validateChallenge_primitive_body_raises_TypeError_witness :
  fst (validateChallenge Sample.options
         (Sample.world
            (Sample.by_endpoint Sample.issued
               (Sample.rejected 502 (Js.Str "Bad Gateway")))))
  = Abrupt (ThrownType "Cannot use 'in' operator to search for 'valid' in Bad Gateway").
Proof.
  exact (proj1 (validateChallenge_primitive_body_raises_TypeError
                  Sample.options
                  (Sample.world
                     (Sample.by_endpoint Sample.issued
                        (Sample.rejected 502 (Js.Str "Bad Gateway"))))
                  _ _ eq_refl eq_refl eq_refl I)).
Defined.

(** X5. When the validation request is rejected without a verdict (no
    response at all, or a response whose body is falsy, an array, or an
    object without a [valid] property), [validateChallenge] throws the
    [KeyClaimError] that [handleError] builds with the default message
    "Failed to validate challenge": its status code is that of the
    response when there is one, and its code is ['network_error'] when the
    request went out and nothing came back. *)
Theorem validateChallenge_rejection_without_verdict_throws :
  forall (options : ValidateChallengeOptions) (w : World) (e : Axios.AxiosError),
    net w (sent w) (validation_request (this w) options) = Axios.Rejected e ->
    (Axios.response e = None
     \/ exists resp, Axios.response e = Some resp
                     /\ (Js.truthy (Axios.data resp) = false
                         \/ Js.has "valid" (Axios.data resp) = Some false)) ->
    exists k : KeyClaimError,
      fst (validateChallenge options w) = Abrupt (ThrownKeyClaim k)
      /\ k = handleError (ThrownAxios e) "Failed to validate challenge"
      /\ statusCode k = option_map Axios.status (Axios.response e)
      /\ (Axios.response e = None -> Axios.request e = true ->
          code k = Js.Str "network_error").
Proof.
  intros options w e He Hno.
  exists (handleError (ThrownAxios e) "Failed to validate challenge").
  split; [| split; [reflexivity | split]].
  - unfold validateChallenge, try_catch, bind, post, ret, throw.
    unfold validation_request in He. rewrite He. simpl.
    destruct Hno as [Hr | [resp [Hr [Hf | Hh]]]]; rewrite Hr; simpl.
    + reflexivity.
    + rewrite Hf. reflexivity.
    + rewrite Hh. destruct (Js.truthy (Axios.data resp)); reflexivity.
  - unfold handleError. simpl.
    destruct (Axios.response e); [reflexivity |].
    destruct (Axios.request e); reflexivity.
  - intros Hr Hq. unfold handleError. simpl. rewrite Hr, Hq. reflexivity.
Qed.

Lemma validateChallenge_rejection_without_verdict_throws_witness :
  exists k : KeyClaimError,
    fst (validateChallenge Sample.options
           (Sample.world
              (Sample.by_endpoint Sample.issued
                 (Sample.rejected 403 (Js.Obj [("error", Js.Str "forbidden")])))))
    = Abrupt (ThrownKeyClaim k)
    /\ statusCode k = Some 403
    /\ code k = Js.Str "forbidden".
Proof.
  destruct (validateChallenge_rejection_without_verdict_throws
              Sample.options
              (Sample.world
                 (Sample.by_endpoint Sample.issued
                    (Sample.rejected 403 (Js.Obj [("error", Js.Str "forbidden")]))))
              _ eq_refl
              (or_intror (ex_intro _ _ (conj eq_refl (or_intror eq_refl)))))
    as [k [Hk [Hd [Hs _]]]].
  exists k. split; [exact Hk | split; [exact Hs |]].
  rewrite Hd. reflexivity.
Defined.

(* ===================================================================== *)
(** ** [validate]: how the three steps compose                             *)
(* ===================================================================== *)

Lemma generateResponse_run challenge method customData w :
  generateResponse challenge method customData w
  = (fst (generateResponse challenge method customData w), w).
Proof.
  rewrite <- (generateResponse_silent challenge method customData w) at 3.
  destruct (generateResponse challenge method customData w). reflexivity.
Qed.

(** [validate], step by step. *)
Lemma validate_run method ttl0 customData w :
  validate method ttl0 customData w
  = let m := match method with Some m => m | None => "hmac" end in
    let t := match ttl0 with Some t => t | None => 30 end in
    match createChallenge {| ttl := Some t |} w with
    | (Abrupt e, w1) =>
        (Abrupt (ThrownKeyClaim (handleError e "Validation flow failed")), w1)
    | (Normal created, w1) =>
        if nullish created then
          (Abrupt (ThrownKeyClaim
                     (handleError
                        (ThrownType (destructure_type_error "challenge" created))
                        "Validation flow failed")), w1)
        else
          match fst (generateResponse (Js.get "challenge" created) (Some m)
                       customData w1) with
          | Abrupt e =>
              (Abrupt (ThrownKeyClaim (handleError e "Validation flow failed")), w1)
          | Normal resp =>
              let options := {| challenge := Js.get "challenge" created;
                                response := resp;
                                decryptedChallenge := Js.Undefined |} in
              (through_validate_catch (fst (validateChallenge options w1)),
               snd (validateChallenge options w1))
          end
    end.
Proof.
  unfold validate, try_catch. cbv zeta. unfold bind at 1.
  destruct (createChallenge _ w) as [[created | e] w1]; [| reflexivity].
  unfold bind at 1.
  destruct created; simpl nullish; cbv iota; unfold destructure, throw, ret;
    try reflexivity;
    (unfold bind at 1;
     rewrite generateResponse_run;
     destruct (fst (generateResponse _ _ _ w1)) as [resp | e]; [| reflexivity];
     cbn [fst];
     match goal with
     | |- context [validateChallenge ?o w1] =>
         destruct (validateChallenge o w1) as [[v | e] w2]; reflexivity
     end).
Qed.

(** X6. When the creation request is answered with a body other than
    [undefined] and [null], and [generateResponse] returns a response for
    the body's [challenge], [validate] completes as [validateChallenge]
    does on that challenge and that response (with no
    [decryptedChallenge]), in the state left by the creation request: a
    result is returned as it is, a thrown value goes through [handleError]
    with the default message "Validation flow failed". *)
Theorem validate_composes :
  forall (method : option string) (ttl0 : option Z) (customData : Js.value)
         (w : World) (r1 : Axios.AxiosResponse) (resp : Js.value),
    let m := match method with Some m => m | None => "hmac" end in
    let t := match ttl0 with Some t => t | None => 30 end in
    let creq := creation_request (this w) {| ttl := Some t |} in
    let options := {| challenge := Js.get "challenge" (Axios.data r1);
                      response := resp;
                      decryptedChallenge := Js.Undefined |} in
    net w (sent w) creq = Axios.Resolved r1 ->
    nullish (Axios.data r1) = false ->
    fst (generateResponse (Js.get "challenge" (Axios.data r1)) (Some m) customData w)
    = Normal resp ->
    validate method ttl0 customData w
    = (through_validate_catch (fst (validateChallenge options (sending creq w))),
       snd (validateChallenge options (sending creq w))).
Proof.
  intros method ttl0 customData w r1 resp m t creq options Hnet Hnull Hgen.
  rewrite validate_run. cbv zeta. rewrite createChallenge_run.
  fold t. fold creq. rewrite Hnet, Hnull.
  rewrite (generateResponse_reads_secret _ _ _ (sending creq w) w eq_refl).
  fold m. rewrite Hgen. reflexivity.
Qed.

Lemma validate_composes_witness :
  validate (Some "hash") None Js.Undefined
    (Sample.world
       (Sample.by_endpoint Sample.issued
          (Sample.rejected 400
             (Js.Obj [("valid", Js.Bool false); ("error", Js.Str "expired")]))))
  = (Normal (Js.Obj [("valid", Js.Bool false); ("error", Js.Str "expired")]),
     snd (validateChallenge
            {| challenge := Js.Str "abc123";
               response :=
                 Js.Str "1c26003c2debb0ab6eabed12f78d13935da7ba98973b2f89f675ffeff848ae68";
               decryptedChallenge := Js.Undefined |}
            (sending (creation_request Sample.client {| ttl := Some 30 |})
               (Sample.world
                  (Sample.by_endpoint Sample.issued
                     (Sample.rejected 400
                        (Js.Obj [("valid", Js.Bool false);
                                 ("error", Js.Str "expired")]))))))).
Proof.
  refine (eq_trans
            (validate_composes (Some "hash") None Js.Undefined
               (Sample.world
                  (Sample.by_endpoint Sample.issued
                     (Sample.rejected 400
                        (Js.Obj [("valid", Js.Bool false);
                                 ("error", Js.Str "expired")]))))
               _ (Js.Str "1c26003c2debb0ab6eabed12f78d13935da7ba98973b2f89f675ffeff848ae68")
               eq_refl eq_refl _) _).
  - vm_compute. reflexivity.
  - reflexivity.
Defined.

Lemma generateResponse_unknown_method_shape method challenge customData w :
  method <> "echo" -> method <> "hmac" -> method <> "hash" -> method <> "custom" ->
  exists k : KeyClaimError,
    fst (generateResponse challenge (Some method) customData w)
    = Abrupt (ThrownKeyClaim k)
    /\ (if String.eqb (message k) "" then "Validation flow failed" else message k)
       = "Unknown response method: " ++ method.
Proof.
  intros He Hm Hh Hc.
  exists {| message := "Unknown response method: " ++ method;
            code := Js.Undefined; statusCode := None |}.
  split.
  - unfold generateResponse, bind, get_this, throw.
    apply String.eqb_neq in He, Hm, Hh, Hc.
    rewrite He, Hm, Hh, Hc. reflexivity.
  - reflexivity.
Qed.

(** X7. With method ['echo'], when the creation request is answered with a
    body other than [undefined] and [null] and the validation request is
    resolved, [validate] returns the body of that second answer as it is;
    the validation request carried the [challenge] of the first body both
    as challenge and as response, and these two requests are all that was
    sent. *)
Theorem validate_echo_returns_remote_result :
  forall (ttl0 : option Z) (customData : Js.value) (w : World)
         (r1 r2 : Axios.AxiosResponse),
    let t := match ttl0 with Some t => t | None => 30 end in
    let creq := creation_request (this w) {| ttl := Some t |} in
    let vreq := validation_request (this w)
                  {| challenge := Js.get "challenge" (Axios.data r1);
                     response := Js.get "challenge" (Axios.data r1);
                     decryptedChallenge := Js.Undefined |} in
    net w (sent w) creq = Axios.Resolved r1 ->
    nullish (Axios.data r1) = false ->
    net w (sent w ++ [creq])%list vreq = Axios.Resolved r2 ->
    validate (Some "echo") ttl0 customData w
    = (Normal (Axios.data r2), sending vreq (sending creq w)).
Proof.
  intros ttl0 customData w r1 r2 t creq vreq Hc Hnull Hv.
  rewrite validate_run. cbv zeta. rewrite createChallenge_run.
  fold t. fold creq. rewrite Hc, Hnull.
  change (fst (generateResponse (Js.get "challenge" (Axios.data r1)) (Some "echo")
                 customData (sending creq w)))
    with (Normal (Js.get "challenge" (Axios.data r1))).
  cbv iota zeta.
  rewrite (validateChallenge_resolved _ (sending creq w) r2 Hv).
  reflexivity.
Qed.

Lemma validate_echo_returns_remote_result_witness :
  fst (validate (Some "echo") (Some 0) Js.Undefined
         (Sample.world
            (Sample.by_endpoint Sample.issued
               (Sample.ok (Js.Obj [("valid", Js.Bool true);
                                   ("signature", Js.Str "3045022100")])))))
  = Normal (Js.Obj [("valid", Js.Bool true); ("signature", Js.Str "3045022100")]).
Proof.
  exact (f_equal fst
           (validate_echo_returns_remote_result (Some 0) Js.Undefined
              (Sample.world
                 (Sample.by_endpoint Sample.issued
                    (Sample.ok (Js.Obj [("valid", Js.Bool true);
                                        ("signature", Js.Str "3045022100")]))))
              _ _ eq_refl eq_refl eq_refl)).
Defined.

(** X8. When the creation request is rejected, [validate] sends nothing
    else and throws a [KeyClaimError] that keeps the message of the error
    of [createChallenge] (or says "Validation flow failed" when that
    message is empty), with the code ['unknown_error'] and no status
    code. *)
Theorem validate_stops_when_creation_is_rejected :
  forall (method : option string) (ttl0 : option Z) (customData : Js.value)
         (w : World) (e : Axios.AxiosError),
    let t := match ttl0 with Some t => t | None => 30 end in
    let creq := creation_request (this w) {| ttl := Some t |} in
    let stage := message (handleError (ThrownAxios e) "Failed to create challenge") in
    net w (sent w) creq = Axios.Rejected e ->
    validate method ttl0 customData w
    = (Abrupt (ThrownKeyClaim
                 {| message := if String.eqb stage "" then "Validation flow failed"
                               else stage;
                    code := Js.Str "unknown_error";
                    statusCode := None |}),
       sending creq w).
Proof.
  intros method ttl0 customData w e t creq stage H.
  rewrite validate_run. cbv zeta. rewrite createChallenge_run.
  fold t. fold creq. rewrite H.
  rewrite (handleError_own (ThrownKeyClaim _) _ I). reflexivity.
Qed.

Lemma validate_stops_when_creation_is_rejected_witness :
  validate None None Js.Undefined
    (Sample.world (Sample.by_endpoint Sample.unreachable Sample.issued))
  = (Abrupt (ThrownKeyClaim
               {| message := "Network error: No response received from server";
                  code := Js.Str "unknown_error";
                  statusCode := None |}),
     sending (creation_request Sample.client {| ttl := Some 30 |})
       (Sample.world (Sample.by_endpoint Sample.unreachable Sample.issued))).
Proof.
  exact (validate_stops_when_creation_is_rejected None None Js.Undefined
           (Sample.world (Sample.by_endpoint Sample.unreachable Sample.issued))
           _ eq_refl).
Defined.

(** X9. [validate] finds a wrong method or missing custom data only after
    the challenge has been requested: when the creation request is
    answered with a body other than [undefined] and [null], an unknown
    method, or the method ['custom'] with falsy [customData], makes
    [validate] throw the error of [generateResponse] (same message, code
    ['unknown_error']) once the creation request has been sent; no
    validation request follows. *)
Theorem validate_rejects_input_after_creating_challenge :
  forall (method : string) (ttl0 : option Z) (customData : Js.value)
         (w : World) (r1 : Axios.AxiosResponse),
    let t := match ttl0 with Some t => t | None => 30 end in
    let creq := creation_request (this w) {| ttl := Some t |} in
    net w (sent w) creq = Axios.Resolved r1 ->
    nullish (Axios.data r1) = false ->
    (method <> "echo" -> method <> "hmac" -> method <> "hash" ->
     method <> "custom" ->
     validate (Some method) ttl0 customData w
     = (Abrupt (ThrownKeyClaim
                  {| message := "Unknown response method: " ++ method;
                     code := Js.Str "unknown_error";
                     statusCode := None |}),
        sending creq w))
    /\ (method = "custom" -> Js.truthy customData = false ->
        validate (Some method) ttl0 customData w
        = (Abrupt (ThrownKeyClaim
                     {| message := "Custom data is required for custom method";
                        code := Js.Str "unknown_error";
                        statusCode := None |}),
           sending creq w)).
Proof.
  intros method ttl0 customData w r1 t creq Hc Hnull.
  split.
  - intros He Hm Hh Hcu.
    rewrite validate_run. cbv zeta. rewrite createChallenge_run.
    fold t. fold creq. rewrite Hc, Hnull.
    destruct (generateResponse_unknown_method_shape method
                (Js.get "challenge" (Axios.data r1)) customData (sending creq w)
                He Hm Hh Hcu) as [k [-> Hk]].
    rewrite (handleError_own (ThrownKeyClaim k) _ I). simpl message_of.
    rewrite Hk. reflexivity.
  - intros -> Hf.
    rewrite validate_run. cbv zeta. rewrite createChallenge_run.
    fold t. fold creq. rewrite Hc, Hnull.
    rewrite generateResponse_custom_falsy by exact Hf.
    reflexivity.
Qed.

Lemma validate_rejects_input_after_creating_challenge_witness :
  validate (Some "md5") (Some 10) Js.Undefined
    (Sample.world (Sample.by_endpoint Sample.issued Sample.unreachable))
  = (Abrupt (ThrownKeyClaim
               {| message := "Unknown response method: md5";
                  code := Js.Str "unknown_error";
                  statusCode := None |}),
     sending (creation_request Sample.client {| ttl := Some 10 |})
       (Sample.world (Sample.by_endpoint Sample.issued Sample.unreachable))).
Proof.
  apply (proj1 (validate_rejects_input_after_creating_challenge
                  "md5" (Some 10) Js.Undefined
                  (Sample.world (Sample.by_endpoint Sample.issued Sample.unreachable))
                  _ eq_refl eq_refl)); discriminate.
Defined.

(* ===================================================================== *)
(** ** The requests of a client                                            *)
(* ===================================================================== *)

(** X10. Every call of [validate] sends the creation request first and at
    most one validation request after it, never more (no retry), and
    always the creation request, whatever the method and the data. *)
Theorem validate_sends_one_or_two_requests :
  forall (method : option string) (ttl0 : option Z) (customData : Js.value)
         (w : World),
    let t := match ttl0 with Some t => t | None => 30 end in
    let creq := creation_request (this w) {| ttl := Some t |} in
    exists rest : list Axios.Request,
      sent (snd (validate method ttl0 customData w)) = (sent w ++ creq :: rest)%list
      /\ (rest = []
          \/ exists options, rest = [validation_request (this w) options]).
Proof.
  intros method ttl0 customData w t creq.
  rewrite validate_run. cbv zeta. rewrite createChallenge_run.
  fold t. fold creq.
  destruct (net w (sent w) creq) as [r1 | e].
  - destruct (nullish (Axios.data r1)).
    + exists []. split; [reflexivity | left; reflexivity].
    + destruct (fst (generateResponse _ _ _ _)) as [resp | e].
      * eexists [_]. cbn [snd]. rewrite validateChallenge_state.
        split; [| right; eexists; reflexivity].
        simpl. rewrite <- app_assoc. reflexivity.
      * exists []. split; [reflexivity | left; reflexivity].
  - exists []. split; [reflexivity | left; reflexivity].
Qed.

Lemma perform_sent call w :
  exists new : list Axios.Request,
    sent (snd (perform call w)) = (sent w ++ new)%list
    /\ Forall (fun r => Axios.config r = axiosInstance (this w)
                        /\ (Axios.url r = "/challenge/create"
                            \/ Axios.url r = "/challenge/validate")) new.
Proof.
  destruct call as [options | ch m cd | options | m t cd]; simpl perform.
  - rewrite createChallenge_run. eexists [_]. split; [reflexivity |].
    repeat constructor.
  - rewrite generateResponse_silent. exists []. split; [| constructor].
    symmetry. apply app_nil_r.
  - rewrite validateChallenge_state. eexists [_]. split; [reflexivity |].
    constructor; [split; [reflexivity | right; reflexivity] | constructor].
  - rewrite validate_run. cbv zeta. rewrite createChallenge_run.
    match goal with |- context [net w (sent w) ?q] => set (creq := q) end.
    assert (Hcreq : Axios.config creq = axiosInstance (this w)
                    /\ (Axios.url creq = "/challenge/create"
                        \/ Axios.url creq = "/challenge/validate"))
      by (split; [reflexivity | left; reflexivity]).
    destruct (net w (sent w) creq) as [r1 | e];
      [destruct (nullish (Axios.data r1));
       [| destruct (fst (generateResponse _ _ _ _)) as [resp | e]] |];
      try (exists [creq]; split; [reflexivity | repeat constructor; apply Hcreq]).
    eexists [creq; _]. cbn [snd]. rewrite validateChallenge_state.
    split; [simpl; rewrite <- app_assoc; reflexivity |].
    constructor; [exact Hcreq |].
    constructor; [split; [reflexivity | right; reflexivity] | constructor].
Qed.

Lemma after_sent calls :
  forall w, exists new : list Axios.Request,
    sent (after calls w) = (sent w ++ new)%list
    /\ Forall (fun r => Axios.config r = axiosInstance (this w)
                        /\ (Axios.url r = "/challenge/create"
                            \/ Axios.url r = "/challenge/validate")) new.
Proof.
  induction calls as [| call rest IH]; intros w; simpl after.
  - exists []. split; [symmetry; apply app_nil_r | constructor].
  - destruct (perform_sent call w) as [new1 [H1 F1]].
    destruct (IH (snd (perform call w))) as [new2 [H2 F2]].
    exists (new1 ++ new2)%list. split.
    + rewrite H2, H1, app_assoc. reflexivity.
    + apply Forall_app. split; [exact F1 |].
      replace (this (snd (perform call w))) with (this w) in F2; [exact F2 |].
      symmetry. exact (after_keeps_client [call] w).
Qed.

(** X11. Whatever sequence of [createChallenge], [generateResponse],
    [validateChallenge] and [validate] calls is made on a constructed
    client, and whatever the remote side answers, the requests already
    sent stay in the log and every request added goes to
    [/challenge/create] or [/challenge/validate] under the base
    [https://keyclaim.org/api], with the header [Authorization: Bearer]
    followed by the API key, and the timeout 30000. *)
Theorem every_request_is_well_addressed :
  forall (config : KeyClaimConfig.t + string) (sec : option string)
         (c : KeyClaimClient),
    constructor config sec = inr c ->
    forall (calls : list Call) (remote : Axios.Transport) (log : list Axios.Request),
    exists new : list Axios.Request,
      sent (after calls {| this := c; net := remote; sent := log |})
      = (log ++ new)%list
      /\ Forall (well_addressed (apiKey c)) new.
Proof.
  intros config sec c Hc calls remote log.
  destruct (after_sent calls {| this := c; net := remote; sent := log |})
    as [new [Hs Hf]].
  exists new. split; [exact Hs |].
  assert (Hi : axiosInstance c
               = {| Axios.baseURL := "https://keyclaim.org/api";
                    Axios.headers :=
                      [("Content-Type", "application/json");
                       ("Authorization", "Bearer " ++ apiKey c)];
                    Axios.timeout := 30000 |}).
  { destruct config as [cfg | key].
    - destruct cfg as [key sec0].
      rewrite constructor_object_eq_positional, constructor_positional in Hc.
      destruct (String.prefix "kc_" key); [| discriminate].
      injection Hc as <-. reflexivity.
    - rewrite constructor_positional in Hc.
      destruct (String.prefix "kc_" key); [| discriminate].
      injection Hc as <-. reflexivity. }
  simpl in Hf. rewrite Hi in Hf.
  eapply Forall_impl; [| exact Hf].
  intros r [Hconf Hurl]. unfold well_addressed. rewrite Hconf. simpl.
  split; [right; left; reflexivity | split; [reflexivity | split; [reflexivity | exact Hurl]]].
Qed.

Lemma every_request_is_well_addressed_witness :
  exists new : list Axios.Request,
    sent (after [CallValidate (Some "echo") None Js.Undefined;
                 CallCreateChallenge {| ttl := Some 60 |}]
            (Sample.world (Sample.by_endpoint Sample.issued Sample.unreachable)))
    = ([] ++ new)%list
    /\ Forall (well_addressed "kc_demo") new.
Proof.
  exact (every_request_is_well_addressed
           (inr "kc_demo") (Some "s") Sample.client eq_refl
           [CallValidate (Some "echo") None Js.Undefined;
            CallCreateChallenge {| ttl := Some 60 |}]
           (Sample.by_endpoint Sample.issued Sample.unreachable) []).
Defined.

(** X12. Every client the constructor builds has an API key that starts
    with ["kc_"], a secret that is not the empty string (so HMAC never
    runs with an empty key), the base URL [https://keyclaim.org], and a
    secret equal to the API key or to the secret supplied. *)
Theorem constructed_client_invariant :
  forall (config : KeyClaimConfig.t + string) (sec : option string)
         (c : KeyClaimClient),
    constructor config sec = inr c ->
    String.prefix "kc_" (apiKey c) = true
    /\ secret c <> ""
    /\ baseUrl c = "https://keyclaim.org"
    /\ (secret c = apiKey c
        \/ Some (secret c) = match config with
                             | inl cfg => KeyClaimConfig.secret cfg
                             | inr _ => sec
                             end).
Proof.
  intros config sec c Hc.
  assert (H : exists key s, constructor (inr key) s = inr c
                            /\ s = match config with
                                   | inl cfg => KeyClaimConfig.secret cfg
                                   | inr _ => sec
                                   end).
  { destruct config as [[key sec0] | key].
    - exists key, sec0. rewrite constructor_object_eq_positional in Hc. auto.
    - exists key, sec. auto. }
  destruct H as [key [s [Hk <-]]]. clear Hc.
  rewrite constructor_positional in Hk.
  destruct (String.prefix "kc_" key) eqn:Hp; [| discriminate].
  injection Hk as <-. simpl.
  split; [exact Hp | split; [| split; [reflexivity |]]].
  - unfold or_string. destruct s as [x |].
    + destruct (String.eqb_spec x ""); [| assumption].
      intros ->. discriminate Hp.
    + intros ->. discriminate Hp.
  - unfold or_string. destruct s as [x |]; [| left; reflexivity].
    destruct (String.eqb x ""); [left | right]; reflexivity.
Qed.

Lemma constructed_client_invariant_witness :
  String.prefix "kc_" (apiKey Sample.client) = true
  /\ secret Sample.client <> ""
  /\ baseUrl Sample.client = "https://keyclaim.org"
  /\ (secret Sample.client = apiKey Sample.client
      \/ Some (secret Sample.client) = Some "s").
Proof.
  exact (constructed_client_invariant (inr "kc_demo") (Some "s") Sample.client eq_refl).
Defined.

(* ===================================================================== *)
(** ** What a response depends on                                          *)
(* ===================================================================== *)

Lemma append_assoc (a b c : string) : (a ++ b) ++ c = a ++ (b ++ c).
Proof.
  induction a as [| x a IH]; simpl; [reflexivity |].
  rewrite IH. reflexivity.
Qed.

Lemma string_of_Z_nonempty n : Js.string_of_Z n <> "".
Proof.
  unfold Js.string_of_Z, NilZero.string_of_int, NilZero.string_of_uint.
  destruct (Z.to_int n) as [d | d]; [| discriminate].
  destruct d; discriminate.
Qed.

Lemma stringify_in_template_nonempty v : Js.stringify_in_template v <> "".
Proof.
  unfold Js.stringify_in_template.
  destruct v as [| | [|] | n | s | items | props]; simpl; try discriminate.
  apply string_of_Z_nonempty.
Qed.

(** X13. Whenever [generateResponse] returns for the method ['hmac'],
    ['hash'] or ['custom'], the response is a string of exactly 64
    lower-case hexadecimal characters, whatever the challenge, the secret
    and the data. *)
Theorem generateResponse_returns_64_hex_characters :
  forall (challenge : Js.value) (method : string) (customData : Js.value)
         (w : World) (v : Js.value),
    method = "hmac" \/ method = "hash" \/ method = "custom" ->
    fst (generateResponse challenge (Some method) customData w) = Normal v ->
    exists digest : string,
      v = Js.Str digest
      /\ String.length digest = 64%nat
      /\ all_hex digest = true.
Proof.
  intros challenge method customData w v Hm.
  unfold generateResponse, bind, get_this, ret, throw.
  destruct Hm as [-> | [-> | ->]]; simpl.
  - destruct challenge; simpl; try discriminate.
    intros H. injection H as <-. eexists. split; [reflexivity |].
    apply createHmac_sha256_hex_format.
  - intros H. injection H as <-. eexists. split; [reflexivity |].
    apply createHash_sha256_hex_format.
  - destruct (Js.truthy customData); simpl; [| discriminate].
    destruct customData; simpl; intros H; injection H as <-;
      (eexists; split; [reflexivity | apply createHash_sha256_hex_format]).
Qed.

Lemma generateResponse_returns_64_hex_characters_witness :
  exists digest : string,
    Js.Str (Crypto.createHmac_sha256_hex "s" "abc123") = Js.Str digest
    /\ String.length digest = 64%nat
    /\ all_hex digest = true.
Proof.
  exact (generateResponse_returns_64_hex_characters
           (Js.Str "abc123") "hmac" Js.Undefined
           (Sample.world (Sample.by_endpoint Sample.unreachable Sample.unreachable))
           _ (or_introl eq_refl) eq_refl).
Defined.

(** X14. The method ['custom'] does not tell a datum that is not a string
    from the string that is its [JSON.stringify] text: for every truthy
    [customData] other than a string, whose numbers are safe integers, the
    call completes exactly as it does when given that text as a string. *)
Theorem generateResponse_custom_confuses_value_and_its_text :
  forall (challenge customData : Js.value) (w : World),
    Js.truthy customData = true ->
    Js.in_range customData = true ->
    (forall text, customData <> Js.Str text) ->
    generateResponse challenge (Some "custom") customData w
    = generateResponse challenge (Some "custom")
        (Js.Str (Js.stringify_in_template customData)) w.
Proof.
  intros challenge customData w Ht _ Hns.
  unfold generateResponse, bind, get_this, ret, throw. simpl.
  rewrite Ht.
  pose proof (stringify_in_template_nonempty customData) as Hne.
  apply String.eqb_neq in Hne. rewrite Hne. simpl.
  destruct customData; try reflexivity.
  contradiction (Hns s). reflexivity.
Qed.

Lemma generateResponse_custom_confuses_value_and_its_text_witness :
  generateResponse (Js.Str "abc123") (Some "custom") (Js.Num 1)
    (Sample.world (Sample.by_endpoint Sample.unreachable Sample.unreachable))
  = generateResponse (Js.Str "abc123") (Some "custom") (Js.Str "1")
      (Sample.world (Sample.by_endpoint Sample.unreachable Sample.unreachable)).
Proof.
  apply (generateResponse_custom_confuses_value_and_its_text
           (Js.Str "abc123") (Js.Num 1)); [reflexivity | reflexivity | discriminate].
Defined.

(** X15. The method ['custom'] joins challenge and data with [":"] and
    does not escape it: a colon-separated tail of the challenge can move
    to the front of a string datum without changing the response. *)
Theorem generateResponse_custom_delimiter_is_ambiguous :
  forall (challenge moved data : string) (w : World),
    data <> "" ->
    generateResponse (Js.Str (challenge ++ ":" ++ moved)) (Some "custom")
      (Js.Str data) w
    = generateResponse (Js.Str challenge) (Some "custom")
        (Js.Str (moved ++ ":" ++ data)) w.
Proof.
  intros challenge moved data w Hd.
  rewrite !generateResponse_custom_truthy.
  - rewrite !append_assoc. reflexivity.
  - apply truthy_Str. destruct moved; discriminate.
  - apply truthy_Str. exact Hd.
Qed.

Lemma generateResponse_custom_delimiter_is_ambiguous_witness :
  generateResponse (Js.Str "abc:123") (Some "custom") (Js.Str "x")
    (Sample.world (Sample.by_endpoint Sample.unreachable Sample.unreachable))
  = generateResponse (Js.Str "abc") (Some "custom") (Js.Str "123:x")
      (Sample.world (Sample.by_endpoint Sample.unreachable Sample.unreachable)).
Proof.
  apply (generateResponse_custom_delimiter_is_ambiguous "abc" "123" "x").
  discriminate.
Defined.

(** X16. The method ['hash'] hashes challenge and secret with nothing
    between them: a client whose secret is [moved ++ rest] answers the
    challenge [challenge] as a client whose secret is [rest] answers
    [challenge ++ moved]. *)
Theorem generateResponse_hash_has_no_separator :
  forall (challenge moved rest : string) (customData : Js.value) (w1 w2 : World),
    secret (this w1) = moved ++ rest ->
    secret (this w2) = rest ->
    fst (generateResponse (Js.Str challenge) (Some "hash") customData w1)
    = fst (generateResponse (Js.Str (challenge ++ moved)) (Some "hash") customData w2).
Proof.
  intros challenge moved rest customData w1 w2 H1 H2.
  rewrite !generateResponse_hash. simpl fst.
  rewrite H1, H2, append_assoc. reflexivity.
Qed.

Lemma generateResponse_hash_has_no_separator_witness :
  fst (generateResponse (Js.Str "abc12") (Some "hash") Js.Undefined
         {| this := {| apiKey := "kc_demo"; baseUrl := "https://keyclaim.org";
                       secret := "3s"; axiosInstance := axiosInstance Sample.client |};
            net := Sample.by_endpoint Sample.unreachable Sample.unreachable;
            sent := [] |})
  = fst (generateResponse (Js.Str "abc123") (Some "hash") Js.Undefined
           (Sample.world (Sample.by_endpoint Sample.unreachable Sample.unreachable))).
Proof.
  exact (generateResponse_hash_has_no_separator "abc12" "3" "s" Js.Undefined
           {| this := {| apiKey := "kc_demo"; baseUrl := "https://keyclaim.org";
                         secret := "3s"; axiosInstance := axiosInstance Sample.client |};
              net := Sample.by_endpoint Sample.unreachable Sample.unreachable;
              sent := [] |}
           (Sample.world (Sample.by_endpoint Sample.unreachable Sample.unreachable))
           eq_refl eq_refl).
Defined.

(** X17. The responses of ['echo'] and ['custom'] do not depend on the
    client: two clients with whatever keys and secrets complete alike on
    the same challenge and data, so these responses can be computed
    without the secret. *)
Theorem generateResponse_echo_and_custom_are_unkeyed :
  forall (challenge : Js.value) (method : string) (customData : Js.value)
         (w1 w2 : World),
    method = "echo" \/ method = "custom" ->
    fst (generateResponse challenge (Some method) customData w1)
    = fst (generateResponse challenge (Some method) customData w2).
Proof.
  intros challenge method customData w1 w2 [-> | ->];
    unfold generateResponse, bind, get_this, ret, throw; simpl.
  - reflexivity.
  - destruct (Js.truthy customData); simpl; [| reflexivity].
    destruct customData; reflexivity.
Qed.

Lemma generateResponse_echo_and_custom_are_unkeyed_witness :
  fst (generateResponse (Js.Str "abc123") (Some "custom") (Js.Str "hello")
         {| this := {| apiKey := "kc_other"; baseUrl := "https://keyclaim.org";
                       secret := "another secret";
                       axiosInstance := axiosInstance Sample.client |};
            net := Sample.by_endpoint Sample.unreachable Sample.unreachable;
            sent := [] |})
  = fst (generateResponse (Js.Str "abc123") (Some "custom") (Js.Str "hello")
           (Sample.world (Sample.by_endpoint Sample.unreachable Sample.unreachable))).
Proof.
  exact (generateResponse_echo_and_custom_are_unkeyed
           (Js.Str "abc123") "custom" (Js.Str "hello") _ _ (or_intror eq_refl)).
Defined.

(** X18. [customData] is read by the method ['custom'] only: with any
    other method string, and with no method (the default, ['hmac']), two
    calls that differ in [customData] alone complete alike. *)
Theorem generateResponse_ignores_customData_unless_custom :
  forall (challenge : Js.value) (method : option string)
         (data1 data2 : Js.value) (w : World),
    method <> Some "custom" ->
    generateResponse challenge method data1 w
    = generateResponse challenge method data2 w.
Proof.
  intros challenge method data1 data2 w Hm.
  unfold generateResponse, bind, get_this, ret, throw.
  destruct method as [m |]; [| reflexivity].
  destruct (String.eqb m "echo"); [reflexivity |].
  destruct (String.eqb m "hmac"); [reflexivity |].
  destruct (String.eqb m "hash"); [reflexivity |].
  destruct (String.eqb_spec m "custom") as [-> | _]; [| reflexivity].
  contradiction Hm. reflexivity.
Qed.

Lemma generateResponse_ignores_customData_unless_custom_witness :
  generateResponse (Js.Str "abc123") None (Js.Str "hello")
    (Sample.world (Sample.by_endpoint Sample.unreachable Sample.unreachable))
  = generateResponse (Js.Str "abc123") None Js.Undefined
      (Sample.world (Sample.by_endpoint Sample.unreachable Sample.unreachable)).
Proof.
  apply generateResponse_ignores_customData_unless_custom. discriminate.
Defined.
